(** * Odoo-TopTex proxy: token cache, retry wrapper and route handlers

    A shallow embedding of [src/main.py].  Python values that cross the
    wire are kept as a small value type; every function of the module is
    a computation in a state-and-exception monad over an explicit world
    (the [auth_manager] singleton, the wall clock, the log of outbound
    HTTP requests and the log of [time.sleep] calls).  A raised exception
    keeps the world reached so far, as in Python.

    Calls to [logger] only write text and are left out; the expressions
    their f-strings evaluate are kept where they can raise. *)

From Stdlib Require Import ZArith List String Ascii Bool Lia DecimalString.
Import ListNotations.
Local Open Scope string_scope.
Local Open Scope Z_scope.

Set Implicit Arguments.
Set Warnings "-register-all".

(** ** Python values *)

(** The values [json.loads] can produce, which are also the values the
    module stores and passes on.  A float is carried by its bit pattern:
    the module never computes with one. *)
Inductive pyval : Type :=
| PyNone
| PyBool (b : bool)
| PyInt (z : Z)
| PyFloat (bits : Z)
| PyStr (s : string)
| PyList (items : list pyval)
| PyDict (fields : list (string * pyval)).

(** [v is None] *)
Definition is_None (v : pyval) : bool :=
  match v with PyNone => true | _ => false end.

(** [v == s] for a string literal [s] *)
Definition eq_str (v : pyval) (s : string) : bool :=
  match v with PyStr s' => String.eqb s' s | _ => false end.

(** Exceptions, by the classes the handlers of the module tell apart. *)
Inductive exn : Type :=
| RequestException (msg : string)
    (* requests.exceptions.RequestException and its subclasses:
       ConnectionError, Timeout, HTTPError, ... *)
| HTTPException (status_code : Z) (detail : string)
    (* fastapi.HTTPException *)
| OtherException (cls : string) (msg : string)
    (* any other subclass of Exception *)
| BaseOnly (cls : string).
    (* a BaseException that is not an Exception: KeyboardInterrupt,
       SystemExit, asyncio.CancelledError *)

Definition is_RequestException (e : exn) : bool :=
  match e with RequestException _ => true | _ => false end.

Definition is_Exception (e : exn) : bool :=
  match e with BaseOnly _ => false | _ => true end.

Definition decimal (z : Z) : string :=
  NilZero.string_of_int (Z.to_int z).

(** [str(e)] *)
Definition exn_str (e : exn) : string :=
  match e with
  | RequestException msg => msg
  | HTTPException s d => decimal s ++ ": " ++ d
  | OtherException _ msg => msg
  | BaseOnly _ => ""
  end.

(** Lookup in a dict kept as an association list (first binding wins). *)
Fixpoint assoc (key : string) (fields : list (string * pyval)) : option pyval :=
  match fields with
  | [] => None
  | (k, v) :: rest => if String.eqb k key then Some v else assoc key rest
  end.

(** [d.get(key, default)]; only a dict has the method. *)
Definition dict_get (d : pyval) (key : string) (default : pyval) : exn + pyval :=
  match d with
  | PyDict fields =>
      inr (match assoc key fields with Some v => v | None => default end)
  | _ => inl (OtherException "AttributeError" "object has no attribute 'get'")
  end.

(** ** HTTP messages *)

Record http_request : Type := {
  rq_method : string;
  rq_url : string;
  rq_headers : list (string * string);
  rq_params : list (string * pyval);
  rq_json : option pyval;
  rq_timeout : Z
}.

(** A [requests.Response]: [json_result] is what [response.json()] does. *)
Record response : Type := {
  status_code : Z;
  reason : string;
  url : string;
  json_result : exn + pyval
}.

(** What one call into [requests] does: it takes [elapsed] microseconds
    and either raises or hands back a response. *)
Record net_result : Type := {
  elapsed : Z;
  result : exn + response
}.

(** The inbound [fastapi.Request] of the webhook: header names are lower
    case (ASGI), [rq_body] is what [await req.json()] does. *)
Record Request : Type := {
  headers : list (string * string);
  rq_body : exn + pyval
}.

Fixpoint headers_get (key : string) (hs : list (string * string)) : option string :=
  match hs with
  | [] => None
  | (k, v) :: rest => if String.eqb k key then Some v else headers_get key rest
  end.

(** ** The world *)

Record AuthenticationManager : Type := {
  token : pyval;
  token_expiry : option Z
}.

Record World : Type := {
  auth_manager : AuthenticationManager;
  clock : Z;                       (* microseconds, what datetime.now() reads *)
  net_log : list http_request;     (* outbound requests, oldest first *)
  sleeps : list Z                  (* arguments of time.sleep, oldest first *)
}.

(** [AuthenticationManager.__init__] *)
Definition AuthenticationManager_init : AuthenticationManager :=
  {| token := PyNone; token_expiry := None |}.

Definition set_auth (a : AuthenticationManager) (w : World) : World :=
  {| auth_manager := a; clock := clock w; net_log := net_log w; sleeps := sleeps w |}.

(** ** The monad *)

Inductive outcome (A : Type) : Type :=
| Ret (a : A)
| Raise (e : exn).
Arguments Raise {A} e.

Definition M (A : Type) : Type := World -> outcome A * World.

Definition ret {A} (a : A) : M A := fun w => (Ret a, w).

Definition raise {A} (e : exn) : M A := fun w => (Raise e, w).

Definition bind {A B} (m : M A) (k : A -> M B) : M B :=
  fun w =>
    match m w with
    | (Ret a, w') => k a w'
    | (Raise e, w') => (Raise e, w')
    end.

Notation "x <- m ;; k" := (bind m (fun x => k))
  (at level 61, m at next level, right associativity).
Notation "m ;;; k" := (bind m (fun _ => k))
  (at level 61, right associativity).

(** [try: body  except <classes> as e: handler e] *)
Definition try_except {A} (body : M A) (classes : exn -> bool)
    (handler : exn -> M A) : M A :=
  fun w =>
    match body w with
    | (Ret a, w') => (Ret a, w')
    | (Raise e, w') => if classes e then handler e w' else (Raise e, w')
    end.

Definition any_exn (e : exn) : bool := true.

(** lift a pure computation that may raise *)
Definition lift {A} (r : exn + A) : M A :=
  match r with inl e => raise e | inr a => ret a end.

(** [datetime.now()] *)
Definition datetime_now : M Z := fun w => (Ret (clock w), w).

(** [timedelta(hours=h)] in microseconds *)
Definition timedelta_hours (h : Z) : Z := h * 3600 * 1000000.

(** The longest wait [time.sleep] takes, in whole seconds: beyond it the
    count of nanoseconds leaves 64 bits. *)
Definition sleep_max : Z := 9223372036.

(** [time.sleep(secs)] for an integer [secs] (the module only passes
    integers: [backoff_factor] is 1 at every use). The argument is
    converted first, then tested for its sign. *)
Definition time_sleep (secs : Z) : M unit :=
  fun w =>
    if (secs <? - sleep_max) || (sleep_max <? secs) then
      (Raise (OtherException "OverflowError"
                "timestamp too large to convert to C _PyTime_t"), w)
    else if secs <? 0 then
      (Raise (OtherException "ValueError" "sleep length must be non-negative"), w)
    else
      (Ret tt, {| auth_manager := auth_manager w;
                  clock := clock w + secs * 1000000;
                  net_log := net_log w;
                  sleeps := (sleeps w ++ [secs])%list |}).

(** A coroutine object: the body of an [async def], not yet run. *)
Definition coroutine (A : Type) : Type := M A.

(** Calling an [async def] runs nothing and cannot raise. *)
Definition async_def {A} (body : M A) : M (coroutine A) := ret body.

(** [await x], where [x] may be [None] (a function that fell off its end). *)
Definition await {A} (x : option (coroutine A)) : M A :=
  match x with
  | Some body => body
  | None => raise (OtherException "TypeError"
                     "object NoneType can't be used in 'await' expression")
  end.

(** [range(n)] *)
Definition range (n : Z) : list Z :=
  map Z.of_nat (seq 0 (Z.to_nat n)).

(** ** Pydantic models *)

Definition opt_str (o : option string) : pyval :=
  match o with Some s => PyStr s | None => PyNone end.

Definition opt_val (o : option pyval) : pyval :=
  match o with Some v => v | None => PyNone end.

Module Product.
Record t : Type := {
  sku : string;
  name : string;
  description : option string;
  price : Z;                       (* float, by its bits *)
  stock : Z;
  category : option string
}.
(** [product.dict()] *)
Definition dict (p : t) : pyval :=
  PyDict [("sku", PyStr (sku p)); ("name", PyStr (name p));
          ("description", opt_str (description p));
          ("price", PyFloat (price p)); ("stock", PyInt (stock p));
          ("category", opt_str (category p))].
End Product.

Module Order.
Record t : Type := {
  order_number : string;
  customer_id : string;
  items : list pyval;
  total_price : Z;                 (* float, by its bits *)
  shipping_address : option pyval;
  status : option string
}.
(** [order.dict()] *)
Definition dict (o : t) : pyval :=
  PyDict [("order_number", PyStr (order_number o));
          ("customer_id", PyStr (customer_id o));
          ("items", PyList (items o));
          ("total_price", PyFloat (total_price o));
          ("shipping_address", opt_val (shipping_address o));
          ("status", opt_str (status o))].
End Order.

Module Customer.
Record t : Type := {
  customer_id : string;
  name : string;
  email : string;
  phone : option string;
  address : option pyval
}.
(** [customer.dict()] *)
Definition dict (c : t) : pyval :=
  PyDict [("customer_id", PyStr (customer_id c)); ("name", PyStr (name c));
          ("email", PyStr (email c)); ("phone", opt_str (phone c));
          ("address", opt_val (address c))].
End Customer.

Module UpdateOrder.
(** A field is [None] when it was not given to the constructor, and
    [Some v] (with [v] possibly [None] in Python) when it was. *)
Record t : Type := {
  status : option (option string);
  tracking_number : option (option string)
}.
(** [update.dict(exclude_unset=True)] *)
Definition dict_exclude_unset (u : t) : pyval :=
  PyDict ((match status u with
           | Some v => [("status", opt_str v)] | None => [] end) ++
          (match tracking_number u with
           | Some v => [("tracking_number", opt_str v)] | None => [] end))%list.
End UpdateOrder.

(** ** Environment

    The module-level configuration read from [os.environ], the upstream
    service, and the library routines whose output no handler inspects. *)
Record Env : Type := {
  TOPTEX_API_KEY : option string;
  TOPTEX_BASE_URL : string;
  WEBHOOK_SECRET : option string;
  (* the answer of the network to a request, given the requests made so far *)
  upstream : list http_request -> http_request -> net_result;
  (* repr() of a float or container, as an f-string prints it *)
  py_repr : pyval -> string;
  (* datetime.isoformat() *)
  isoformat : Z -> string;
  (* pydantic validation in Order(...) and UpdateOrder(...) *)
  Order_new : pyval -> pyval -> pyval -> pyval -> pyval -> exn + Order.t;
  UpdateOrder_new : pyval -> pyval -> exn + UpdateOrder.t
}.

(** ** The module *)

Section Proxy.

Variable env : Env.

(** [str(v)], as an f-string applies it *)
Definition py_str (v : pyval) : string :=
  match v with
  | PyNone => "None"
  | PyBool true => "True"
  | PyBool false => "False"
  | PyInt z => decimal z
  | PyStr s => s
  | _ => py_repr env v
  end.

(** Truth value of an optional string: [None] and [""] are false. *)
Definition truthy (s : option string) : bool :=
  match s with
  | Some (String _ _) => true
  | _ => false
  end.

(** [a != b] between [headers.get(...)] and a configured string *)
Definition differs (a b : option string) : bool :=
  match a, b with
  | Some x, Some y => negb (String.eqb x y)
  | None, None => false
  | _, _ => true
  end.

(** *** The [requests] library *)

(** One exchange with the network: logged, timed, answered by [upstream]. *)
Definition requests_send (rq : http_request) : M response :=
  fun w =>
    let r := upstream env (net_log w) rq in
    let w' := {| auth_manager := auth_manager w;
                 clock := clock w + elapsed r;
                 net_log := (net_log w ++ [rq])%list;
                 sleeps := sleeps w |} in
    match result r with
    | inl e => (Raise e, w')
    | inr resp => (Ret resp, w')
    end.

Definition requests_get (u : string) (hs : list (string * string))
    (params : list (string * pyval)) (timeout : Z) : M response :=
  requests_send {| rq_method := "GET"; rq_url := u; rq_headers := hs;
                   rq_params := params; rq_json := None; rq_timeout := timeout |}.

Definition requests_post (u : string) (hs : list (string * string))
    (body : pyval) (timeout : Z) : M response :=
  requests_send {| rq_method := "POST"; rq_url := u; rq_headers := hs;
                   rq_params := []; rq_json := Some body; rq_timeout := timeout |}.

Definition requests_put (u : string) (hs : list (string * string))
    (body : pyval) (timeout : Z) : M response :=
  requests_send {| rq_method := "PUT"; rq_url := u; rq_headers := hs;
                   rq_params := []; rq_json := Some body; rq_timeout := timeout |}.

Definition requests_delete (u : string) (hs : list (string * string))
    (timeout : Z) : M response :=
  requests_send {| rq_method := "DELETE"; rq_url := u; rq_headers := hs;
                   rq_params := []; rq_json := None; rq_timeout := timeout |}.

(** [response.raise_for_status()]: an HTTPError for 400..599, else nothing. *)
Definition raise_for_status (r : response) : M unit :=
  if (400 <=? status_code r) && (status_code r <? 500) then
    raise (RequestException (decimal (status_code r) ++ " Client Error: "
                             ++ reason r ++ " for url: " ++ url r))
  else if (500 <=? status_code r) && (status_code r <? 600) then
    raise (RequestException (decimal (status_code r) ++ " Server Error: "
                             ++ reason r ++ " for url: " ++ url r))
  else ret tt.

(** [response.json()] *)
Definition response_json (r : response) : M pyval := lift (json_result r).

(** *** class AuthenticationManager *)

Definition self_token : M pyval := fun w => (Ret (token (auth_manager w)), w).

Definition self_token_expiry : M (option Z) :=
  fun w => (Ret (token_expiry (auth_manager w)), w).

(** [self.token = v] *)
Definition set_token (v : pyval) : M unit :=
  fun w => (Ret tt, set_auth {| token := v;
                               token_expiry := token_expiry (auth_manager w) |} w).

(** [self.token_expiry = t] *)
Definition set_token_expiry (t : Z) : M unit :=
  fun w => (Ret tt, set_auth {| token := token (auth_manager w);
                               token_expiry := Some t |} w).

Definition is_token_valid : M bool :=
  tok <- self_token ;;
  expiry <- self_token_expiry ;;
  if is_None tok then ret false
  else
    match expiry with
    | None => ret false
    | Some t => now <- datetime_now ;; ret (now <? t)
    end.

Definition authenticate : M pyval :=
  try_except
    (response <- requests_post (TOPTEX_BASE_URL env ++ "/authenticate") []
                   (PyDict [("api_key", opt_str (TOPTEX_API_KEY env))]) 30 ;;
     raise_for_status response ;;;
     data <- response_json response ;;
     tok <- lift (dict_get data "token" PyNone) ;;
     set_token tok ;;;
     now <- datetime_now ;;
     set_token_expiry (now + timedelta_hours 24) ;;;
     self_token)
    is_RequestException
    (fun e => raise (HTTPException 503 ("Authentication failed: " ++ exn_str e))).

Definition get_token : M pyval :=
  valid <- is_token_valid ;;
  if negb valid then authenticate else self_token.

(** *** Utilities *)

(** The loop of [wrapper] over the attempts still to make. *)
Fixpoint retry_loop {R} (max_retries backoff_factor : Z) (func : M R)
    (attempts : list Z) : M (option R) :=
  match attempts with
  | [] => ret None
  | attempt :: rest =>
      try_except
        (r <- func ;; ret (Some r))
        is_RequestException
        (fun e =>
           if attempt =? max_retries - 1 then raise e
           else
             let wait_time := backoff_factor * 2 ^ attempt in
             time_sleep wait_time ;;;
             retry_loop max_retries backoff_factor func rest)
  end.

(** The decorated function applied to its arguments; [func] stands for
    the call of the decorated function on these arguments. *)
Definition retry_with_backoff {R} (max_retries backoff_factor : Z)
    (func : M R) : M (option R) :=
  retry_loop max_retries backoff_factor func (range max_retries).

Definition get_toptex_headers : M (list (string * string)) :=
  tok <- get_token ;;
  ret [("Authorization", "Bearer " ++ py_str tok);
       ("Content-Type", "application/json")].

Definition verify_webhook_secret (req : Request) : M unit :=
  if truthy (WEBHOOK_SECRET env) then
    if differs (headers_get "x-odoo-signature" (headers req)) (WEBHOOK_SECRET env)
    then raise (HTTPException 401 "Unauthorized")
    else ret tt
  else ret tt.

(** *** Route handlers

    Each [async def] is given twice: [f_async] is its body, and [f] is the
    module-level name, that is the body under [@retry_with_backoff()]. *)

(** *** Products *)

Definition get_products_async (skip limit : Z) : M pyval :=
  try_except
    (hs <- get_toptex_headers ;;
     response <- requests_get (TOPTEX_BASE_URL env ++ "/products") hs
                   [("skip", PyInt skip); ("limit", PyInt limit)] 30 ;;
     raise_for_status response ;;;
     response_json response)
    is_RequestException
    (fun e => raise (HTTPException 503 ("TopTex API error: " ++ exn_str e))).

Definition get_products (skip limit : Z) : M (option (coroutine pyval)) :=
  retry_with_backoff 3 1 (async_def (get_products_async skip limit)).

Definition get_product_async (sku : string) : M pyval :=
  try_except
    (hs <- get_toptex_headers ;;
     response <- requests_get (TOPTEX_BASE_URL env ++ "/products/" ++ sku) hs [] 30 ;;
     raise_for_status response ;;;
     response_json response)
    is_RequestException
    (fun e => raise (HTTPException 503 ("TopTex API error: " ++ exn_str e))).

Definition get_product (sku : string) : M (option (coroutine pyval)) :=
  retry_with_backoff 3 1 (async_def (get_product_async sku)).

Definition create_product_async (product : Product.t) : M pyval :=
  try_except
    (hs <- get_toptex_headers ;;
     response <- requests_post (TOPTEX_BASE_URL env ++ "/products") hs
                   (Product.dict product) 30 ;;
     raise_for_status response ;;;
     response_json response)
    is_RequestException
    (fun e => raise (HTTPException 503 ("TopTex API error: " ++ exn_str e))).

Definition create_product (product : Product.t) : M (option (coroutine pyval)) :=
  retry_with_backoff 3 1 (async_def (create_product_async product)).

Definition update_product_async (sku : string) (product : Product.t) : M pyval :=
  try_except
    (hs <- get_toptex_headers ;;
     response <- requests_put (TOPTEX_BASE_URL env ++ "/products/" ++ sku) hs
                   (Product.dict product) 30 ;;
     raise_for_status response ;;;
     response_json response)
    is_RequestException
    (fun e => raise (HTTPException 503 ("TopTex API error: " ++ exn_str e))).

Definition update_product (sku : string) (product : Product.t) : M (option (coroutine pyval)) :=
  retry_with_backoff 3 1 (async_def (update_product_async sku product)).

Definition delete_product_async (sku : string) : M pyval :=
  try_except
    (hs <- get_toptex_headers ;;
     response <- requests_delete (TOPTEX_BASE_URL env ++ "/products/" ++ sku) hs 30 ;;
     raise_for_status response ;;;
     ret (PyDict [("message", PyStr "Product deleted successfully")]))
    is_RequestException
    (fun e => raise (HTTPException 503 ("TopTex API error: " ++ exn_str e))).

Definition delete_product (sku : string) : M (option (coroutine pyval)) :=
  retry_with_backoff 3 1 (async_def (delete_product_async sku)).

(** *** Orders *)

Definition get_orders_async (status : option string) (skip limit : Z) : M pyval :=
  try_except
    (hs <- get_toptex_headers ;;
     let params := ([("skip", PyInt skip); ("limit", PyInt limit)] ++
                    (if truthy status then [("status", opt_str status)] else []))%list in
     response <- requests_get (TOPTEX_BASE_URL env ++ "/orders") hs params 30 ;;
     raise_for_status response ;;;
     response_json response)
    is_RequestException
    (fun e => raise (HTTPException 503 ("TopTex API error: " ++ exn_str e))).

Definition get_orders (status : option string) (skip limit : Z) : M (option (coroutine pyval)) :=
  retry_with_backoff 3 1 (async_def (get_orders_async status skip limit)).

Definition get_order_async (order_number : string) : M pyval :=
  try_except
    (hs <- get_toptex_headers ;;
     response <- requests_get (TOPTEX_BASE_URL env ++ "/orders/" ++ order_number) hs [] 30 ;;
     raise_for_status response ;;;
     response_json response)
    is_RequestException
    (fun e => raise (HTTPException 503 ("TopTex API error: " ++ exn_str e))).

Definition get_order (order_number : string) : M (option (coroutine pyval)) :=
  retry_with_backoff 3 1 (async_def (get_order_async order_number)).

Definition create_order_async (order : Order.t) : M pyval :=
  try_except
    (hs <- get_toptex_headers ;;
     response <- requests_post (TOPTEX_BASE_URL env ++ "/orders") hs
                   (Order.dict order) 30 ;;
     raise_for_status response ;;;
     response_json response)
    is_RequestException
    (fun e => raise (HTTPException 503 ("TopTex API error: " ++ exn_str e))).

Definition create_order (order : Order.t) : M (option (coroutine pyval)) :=
  retry_with_backoff 3 1 (async_def (create_order_async order)).

(** The webhook handler passes [payload.get("order_number")] here, so the
    path parameter is any value; the f-string prints it with [str]. *)

Definition update_order_async (order_number : pyval) (update : UpdateOrder.t) : M pyval :=
  try_except
    (hs <- get_toptex_headers ;;
     response <- requests_put (TOPTEX_BASE_URL env ++ "/orders/" ++ py_str order_number) hs
                   (UpdateOrder.dict_exclude_unset update) 30 ;;
     raise_for_status response ;;;
     response_json response)
    is_RequestException
    (fun e => raise (HTTPException 503 ("TopTex API error: " ++ exn_str e))).

Definition update_order (order_number : pyval) (update : UpdateOrder.t) : M (option (coroutine pyval)) :=
  retry_with_backoff 3 1 (async_def (update_order_async order_number update)).

Definition delete_order_async (order_number : string) : M pyval :=
  try_except
    (hs <- get_toptex_headers ;;
     response <- requests_delete (TOPTEX_BASE_URL env ++ "/orders/" ++ order_number) hs 30 ;;
     raise_for_status response ;;;
     ret (PyDict [("message", PyStr "Order cancelled successfully")]))
    is_RequestException
    (fun e => raise (HTTPException 503 ("TopTex API error: " ++ exn_str e))).

Definition delete_order (order_number : string) : M (option (coroutine pyval)) :=
  retry_with_backoff 3 1 (async_def (delete_order_async order_number)).

(** *** Customers *)

Definition get_customers_async (skip limit : Z) : M pyval :=
  try_except
    (hs <- get_toptex_headers ;;
     response <- requests_get (TOPTEX_BASE_URL env ++ "/customers") hs
                   [("skip", PyInt skip); ("limit", PyInt limit)] 30 ;;
     raise_for_status response ;;;
     response_json response)
    is_RequestException
    (fun e => raise (HTTPException 503 ("TopTex API error: " ++ exn_str e))).

Definition get_customers (skip limit : Z) : M (option (coroutine pyval)) :=
  retry_with_backoff 3 1 (async_def (get_customers_async skip limit)).

Definition get_customer_async (customer_id : string) : M pyval :=
  try_except
    (hs <- get_toptex_headers ;;
     response <- requests_get (TOPTEX_BASE_URL env ++ "/customers/" ++ customer_id) hs [] 30 ;;
     raise_for_status response ;;;
     response_json response)
    is_RequestException
    (fun e => raise (HTTPException 503 ("TopTex API error: " ++ exn_str e))).

Definition get_customer (customer_id : string) : M (option (coroutine pyval)) :=
  retry_with_backoff 3 1 (async_def (get_customer_async customer_id)).

Definition create_customer_async (customer : Customer.t) : M pyval :=
  try_except
    (hs <- get_toptex_headers ;;
     response <- requests_post (TOPTEX_BASE_URL env ++ "/customers") hs
                   (Customer.dict customer) 30 ;;
     raise_for_status response ;;;
     response_json response)
    is_RequestException
    (fun e => raise (HTTPException 503 ("TopTex API error: " ++ exn_str e))).

Definition create_customer (customer : Customer.t) : M (option (coroutine pyval)) :=
  retry_with_backoff 3 1 (async_def (create_customer_async customer)).

Definition update_customer_async (customer_id : string) (customer : Customer.t) : M pyval :=
  try_except
    (hs <- get_toptex_headers ;;
     response <- requests_put (TOPTEX_BASE_URL env ++ "/customers/" ++ customer_id) hs
                   (Customer.dict customer) 30 ;;
     raise_for_status response ;;;
     response_json response)
    is_RequestException
    (fun e => raise (HTTPException 503 ("TopTex API error: " ++ exn_str e))).

Definition update_customer (customer_id : string) (customer : Customer.t) : M (option (coroutine pyval)) :=
  retry_with_backoff 3 1 (async_def (update_customer_async customer_id customer)).

Definition delete_customer_async (customer_id : string) : M pyval :=
  try_except
    (hs <- get_toptex_headers ;;
     response <- requests_delete (TOPTEX_BASE_URL env ++ "/customers/" ++ customer_id) hs 30 ;;
     raise_for_status response ;;;
     ret (PyDict [("message", PyStr "Customer deleted successfully")]))
    is_RequestException
    (fun e => raise (HTTPException 503 ("TopTex API error: " ++ exn_str e))).

Definition delete_customer (customer_id : string) : M (option (coroutine pyval)) :=
  retry_with_backoff 3 1 (async_def (delete_customer_async customer_id)).

(** *** Webhook *)

Definition from_odoo (req : Request) : M pyval :=
  verify_webhook_secret req ;;;
  try_except
    (payload <- lift (rq_body req) ;;
     lift (dict_get payload "type" (PyStr "unknown")) ;;;
     webhook_type <- lift (dict_get payload "type" PyNone) ;;
     if eq_str webhook_type "order_created" then
       order_number <- lift (dict_get payload "order_number" PyNone) ;;
       customer_id <- lift (dict_get payload "customer_id" PyNone) ;;
       items <- lift (dict_get payload "items" (PyList [])) ;;
       total_price <- lift (dict_get payload "total_price" (PyInt 0)) ;;
       shipping_address <- lift (dict_get payload "shipping_address" PyNone) ;;
       order <- lift (Order_new env order_number customer_id items total_price
                        shipping_address) ;;
       c <- create_order order ;;
       result <- await c ;;
       ret (PyDict [("status", PyStr "processed"); ("result", result)])
     else if eq_str webhook_type "order_updated" then
       status <- lift (dict_get payload "status" PyNone) ;;
       tracking_number <- lift (dict_get payload "tracking_number" PyNone) ;;
       update <- lift (UpdateOrder_new env status tracking_number) ;;
       order_number <- lift (dict_get payload "order_number" PyNone) ;;
       c <- update_order order_number update ;;
       result <- await c ;;
       ret (PyDict [("status", PyStr "processed"); ("result", result)])
     else
       ret (PyDict [("status", PyStr "unknown_type");
                    ("webhook_type", webhook_type)]))
    is_Exception
    (fun e => raise (HTTPException 400 ("Error processing webhook: " ++ exn_str e))).

(** *** Authentication status *)

Definition auth_status : M pyval :=
  try_except
    (get_token ;;;
     valid <- is_token_valid ;;
     expiry <- self_token_expiry ;;
     ret (PyDict [("status", PyStr "authenticated");
                  ("token_valid", PyBool valid);
                  ("token_expiry",
                   match expiry with
                   | Some t => PyStr (isoformat env t)
                   | None => PyNone
                   end)]))
    is_Exception
    (fun e => raise (HTTPException 503 ("Authentication error: " ++ exn_str e))).

(** *** Health check *)

Definition health_check : M pyval :=
  try_except
    (hs <- get_toptex_headers ;;
     response <- requests_get (TOPTEX_BASE_URL env ++ "/health") hs [] 10 ;;
     ret (PyDict [("status", PyStr "healthy");
                  ("toptex_api",
                   PyStr (if status_code response =? 200 then "connected"
                          else "disconnected"))]))
    any_exn
    (fun _ => ret (PyDict [("status", PyStr "degraded");
                           ("toptex_api", PyStr "disconnected")])).

(** *** Startup *)

Definition startup_event : M unit :=
  try_except (get_token ;;; ret tt) is_Exception (fun _ => ret tt).

(** ** Calls of the decorated handlers *)

(** One call of a handler under [@retry_with_backoff()], with its arguments. *)
Inductive endpoint : Type :=
| GetProducts (skip limit : Z)
| GetProduct (sku : string)
| CreateProduct (product : Product.t)
| UpdateProduct (sku : string) (product : Product.t)
| DeleteProduct (sku : string)
| GetOrders (status : option string) (skip limit : Z)
| GetOrder (order_number : string)
| CreateOrder (order : Order.t)
| UpdateOrder_ (order_number : pyval) (update : UpdateOrder.t)
| DeleteOrder (order_number : string)
| GetCustomers (skip limit : Z)
| GetCustomer (customer_id : string)
| CreateCustomer (customer : Customer.t)
| UpdateCustomer (customer_id : string) (customer : Customer.t)
| DeleteCustomer (customer_id : string).

Definition call (e : endpoint) : M (option (coroutine pyval)) :=
  match e with
  | GetProducts skip limit => get_products skip limit
  | GetProduct sku => get_product sku
  | CreateProduct p => create_product p
  | UpdateProduct sku p => update_product sku p
  | DeleteProduct sku => delete_product sku
  | GetOrders status skip limit => get_orders status skip limit
  | GetOrder n => get_order n
  | CreateOrder o => create_order o
  | UpdateOrder_ n u => update_order n u
  | DeleteOrder n => delete_order n
  | GetCustomers skip limit => get_customers skip limit
  | GetCustomer c => get_customer c
  | CreateCustomer c => create_customer c
  | UpdateCustomer i c => update_customer i c
  | DeleteCustomer i => delete_customer i
  end.

(** [await f(args)]: how the module itself runs a decorated handler
    (in [from_odoo]), and how the server does. *)
Definition invoke (e : endpoint) : M pyval :=
  c <- call e ;; await c.

(** The request a handler sends upstream once it holds its headers. *)
Definition data_request (e : endpoint) (hs : list (string * string)) : http_request :=
  let base := TOPTEX_BASE_URL env in
  let mk m u params body :=
    {| rq_method := m; rq_url := u; rq_headers := hs; rq_params := params;
       rq_json := body; rq_timeout := 30 |} in
  match e with
  | GetProducts skip limit =>
      mk "GET" (base ++ "/products") [("skip", PyInt skip); ("limit", PyInt limit)] None
  | GetProduct sku => mk "GET" (base ++ "/products/" ++ sku) [] None
  | CreateProduct p => mk "POST" (base ++ "/products") [] (Some (Product.dict p))
  | UpdateProduct sku p =>
      mk "PUT" (base ++ "/products/" ++ sku) [] (Some (Product.dict p))
  | DeleteProduct sku => mk "DELETE" (base ++ "/products/" ++ sku) [] None
  | GetOrders status skip limit =>
      mk "GET" (base ++ "/orders")
         ([("skip", PyInt skip); ("limit", PyInt limit)] ++
          (if truthy status then [("status", opt_str status)] else []))%list None
  | GetOrder n => mk "GET" (base ++ "/orders/" ++ n) [] None
  | CreateOrder o => mk "POST" (base ++ "/orders") [] (Some (Order.dict o))
  | UpdateOrder_ n u =>
      mk "PUT" (base ++ "/orders/" ++ py_str n) []
         (Some (UpdateOrder.dict_exclude_unset u))
  | DeleteOrder n => mk "DELETE" (base ++ "/orders/" ++ n) [] None
  | GetCustomers skip limit =>
      mk "GET" (base ++ "/customers") [("skip", PyInt skip); ("limit", PyInt limit)] None
  | GetCustomer c => mk "GET" (base ++ "/customers/" ++ c) [] None
  | CreateCustomer c => mk "POST" (base ++ "/customers") [] (Some (Customer.dict c))
  | UpdateCustomer i c =>
      mk "PUT" (base ++ "/customers/" ++ i) [] (Some (Customer.dict c))
  | DeleteCustomer i => mk "DELETE" (base ++ "/customers/" ++ i) [] None
  end.

(** What a handler returns from a response that passed [raise_for_status]. *)
Definition on_success (e : endpoint) (r : response) : M pyval :=
  match e with
  | DeleteProduct _ => ret (PyDict [("message", PyStr "Product deleted successfully")])
  | DeleteOrder _ => ret (PyDict [("message", PyStr "Order cancelled successfully")])
  | DeleteCustomer _ => ret (PyDict [("message", PyStr "Customer deleted successfully")])
  | _ => response_json r
  end.

(** The shape all fifteen handler bodies share. *)
Definition handler_shape (e : endpoint) : M pyval :=
  try_except
    (hs <- get_toptex_headers ;;
     response <- requests_send (data_request e hs) ;;
     raise_for_status response ;;;
     on_success e response)
    is_RequestException
    (fun e => raise (HTTPException 503 ("TopTex API error: " ++ exn_str e))).

(** ** The life of the process *)

(** What can happen to the world between two observations: a method of
    [auth_manager], a handler, or time passing. *)
Inductive action : Type :=
| ActTick (d : Z)
| ActIsTokenValid
| ActAuthenticate
| ActGetToken
| ActHeaders
| ActInvoke (e : endpoint)
| ActFromOdoo (req : Request)
| ActAuthStatus
| ActHealthCheck
| ActStartup.

Definition tick (d : Z) : M unit :=
  fun w => (Ret tt, {| auth_manager := auth_manager w; clock := clock w + d;
                       net_log := net_log w; sleeps := sleeps w |}).

Definition run (a : action) (w : World) : World :=
  match a with
  | ActTick d => snd (tick d w)
  | ActIsTokenValid => snd (is_token_valid w)
  | ActAuthenticate => snd (authenticate w)
  | ActGetToken => snd (get_token w)
  | ActHeaders => snd (get_toptex_headers w)
  | ActInvoke e => snd (invoke e w)
  | ActFromOdoo req => snd (from_odoo req w)
  | ActAuthStatus => snd (auth_status w)
  | ActHealthCheck => snd (health_check w)
  | ActStartup => snd (startup_event w)
  end.

(** The world at import time: [auth_manager = AuthenticationManager()]. *)
Definition initial (t0 : Z) : World :=
  {| auth_manager := AuthenticationManager_init; clock := t0;
     net_log := []; sleeps := [] |}.

Definition run_all (acts : list action) (w : World) : World :=
  fold_left (fun w a => run a w) acts w.

(** A world the process can be in. *)
Definition reachable (w : World) : Prop :=
  exists t0 acts, w = run_all acts (initial t0).


End Proxy.

(** ** Scenarios

    Concrete upstream services and configurations, used to run the
    handlers on explicit inputs. *)

Definition base_url : string := "https://api.toptex.io/v3".

Definition is_authenticate (rq : http_request) : bool :=
  String.eqb (rq_url rq) (base_url ++ "/authenticate").

(** A reply that took one millisecond. *)
Definition reply (status : Z) (why : string) (rq : http_request)
    (body : exn + pyval) : net_result :=
  {| elapsed := 1000;
     result := inr {| status_code := status; reason := why;
                      url := rq_url rq; json_result := body |} |}.

Definition no_json : exn + pyval :=
  inl (RequestException "Expecting value: line 1 column 1 (char 0)").

Definition token_reply (rq : http_request) : net_result :=
  reply 200 "OK" rq (inr (PyDict [("token", PyStr "T0")])).

(** Every request succeeds. *)
Definition upstream_ok (log : list http_request) (rq : http_request) : net_result :=
  if is_authenticate rq then token_reply rq
  else reply 200 "OK" rq (inr (PyDict [("sku", PyStr "X1"); ("name", PyStr "Widget")])).

(** Authentication succeeds, every other request gets a 503. *)
Definition upstream_503 (log : list http_request) (rq : http_request) : net_result :=
  if is_authenticate rq then token_reply rq
  else reply 503 "Service Unavailable" rq no_json.

(** Authentication succeeds, every other request gets a 404. *)
Definition upstream_404 (log : list http_request) (rq : http_request) : net_result :=
  if is_authenticate rq then token_reply rq
  else reply 404 "Not Found" rq no_json.

(** The first request of the process is refused at the socket; from the
    second on, every request succeeds. *)
Definition upstream_down_once (log : list http_request) (rq : http_request) : net_result :=
  match log with
  | [] => {| elapsed := 1000;
             result := inl (RequestException "Connection refused") |}
  | _ => upstream_ok log rq
  end.


(** The authentication endpoint answers 500. *)
Definition upstream_auth_500 (log : list http_request) (rq : http_request) : net_result :=
  if is_authenticate rq then reply 500 "Internal Server Error" rq no_json
  else upstream_ok log rq.

(** The authentication endpoint answers 300 with a token in the body. *)
Definition upstream_auth_300 (log : list http_request) (rq : http_request) : net_result :=
  if is_authenticate rq then
    reply 300 "Multiple Choices" rq (inr (PyDict [("token", PyStr "T0")]))
  else upstream_ok log rq.

(** The authentication endpoint answers 200 with an empty JSON object. *)
Definition upstream_no_token (log : list http_request) (rq : http_request) : net_result :=
  if is_authenticate rq then reply 200 "OK" rq (inr (PyDict []))
  else upstream_ok log rq.

(** A validation that accepts string identifiers and a list of items. *)
Definition demo_Order_new (order_number customer_id items total_price
    shipping_address : pyval) : exn + Order.t :=
  match order_number, customer_id, items with
  | PyStr n, PyStr c, PyList l =>
      inr {| Order.order_number := n; Order.customer_id := c; Order.items := l;
             Order.total_price := 0;
             Order.shipping_address :=
               (if is_None shipping_address then None else Some shipping_address);
             Order.status := Some "pending" |}
  | _, _, _ => inl (OtherException "ValidationError" "validation error for Order")
  end.

Definition demo_UpdateOrder_new (status tracking_number : pyval)
    : exn + UpdateOrder.t :=
  let field v :=
    match v with
    | PyNone => inr (Some None)
    | PyStr s => inr (Some (Some s))
    | _ => inl (OtherException "ValidationError" "validation error for UpdateOrder")
    end in
  match field status, field tracking_number with
  | inr s, inr t => inr {| UpdateOrder.status := s; UpdateOrder.tracking_number := t |}
  | inl e, _ => inl e
  | _, inl e => inl e
  end.

Definition demo_env (up : list http_request -> http_request -> net_result) : Env :=
  {| TOPTEX_API_KEY := Some "k3y";
     TOPTEX_BASE_URL := base_url;
     WEBHOOK_SECRET := Some "s3cret";
     upstream := up;
     py_repr := fun _ => "<repr>";
     isoformat := fun t => decimal t;
     Order_new := demo_Order_new;
     UpdateOrder_new := demo_UpdateOrder_new |}.

Definition env_ok : Env := demo_env upstream_ok.
Definition env_503 : Env := demo_env upstream_503.
Definition env_404 : Env := demo_env upstream_404.
Definition env_down_once : Env := demo_env upstream_down_once.
Definition env_auth_500 : Env := demo_env upstream_auth_500.
Definition env_auth_300 : Env := demo_env upstream_auth_300.
Definition env_no_token : Env := demo_env upstream_no_token.

(** The headers a handler builds around the token [T0]. *)
Definition bearer_T0 : list (string * string) :=
  [("Authorization", "Bearer T0"); ("Content-Type", "application/json")].

(** [GET /products] with the default paging. *)
Definition list_products : endpoint := GetProducts 0 50.

(** A world holding a credential [T0] that expires at [t]. *)
Definition holding (t now : Z) : World :=
  {| auth_manager := {| token := PyStr "T0"; token_expiry := Some t |};
     clock := now; net_log := []; sleeps := [] |}.

(** The request [authenticate] sends. *)
Definition auth_request (env : Env) : http_request :=
  {| rq_method := "POST"; rq_url := TOPTEX_BASE_URL env ++ "/authenticate";
     rq_headers := []; rq_params := [];
     rq_json := Some (PyDict [("api_key", opt_str (TOPTEX_API_KEY env))]);
     rq_timeout := 30 |}.

(** A webhook call with a wrong signature. *)
Definition forged_webhook : Request :=
  {| headers := [("content-type", "application/json");
                 ("x-odoo-signature", "guess")];
     rq_body := inr (PyDict [("type", PyStr "order_created");
                             ("order_number", PyStr "SO001");
                             ("customer_id", PyStr "C7")]) |}.


(** A plain (not [async]) function that lets the error of [requests]
    through: what the decorator is written for. *)
Definition fetch (env : Env) (rq : http_request) : M pyval :=
  response <- requests_send env rq ;;
  raise_for_status response ;;;
  response_json response.

(** Webhook calls with the right signature. *)
Definition signed_webhook (body : exn + pyval) : Request :=
  {| headers := [("x-odoo-signature", "s3cret")]; rq_body := body |}.

Definition order_created_fields : list (string * pyval) :=
  [("type", PyStr "order_created"); ("order_number", PyStr "SO001");
   ("customer_id", PyStr "C7"); ("items", PyList [])].

Definition order_SO001 : Order.t :=
  {| Order.order_number := "SO001"; Order.customer_id := "C7"; Order.items := [];
     Order.total_price := 0; Order.shipping_address := None;
     Order.status := Some "pending" |}.

Definition order_updated_fields : list (string * pyval) :=
  [("type", PyStr "order_updated"); ("status", PyStr "shipped")].

Definition update_shipped : UpdateOrder.t :=
  {| UpdateOrder.status := Some (Some "shipped");
     UpdateOrder.tracking_number := Some None |}.

(** A computation never calls [time.sleep]. *)
Definition quiet {A} (m : M A) : Prop :=
  forall w, sleeps (snd (m w)) = sleeps w.

(** The request [health_check] sends. *)
Definition health_request (env : Env) (hs : list (string * string)) : http_request :=
  {| rq_method := "GET"; rq_url := TOPTEX_BASE_URL env ++ "/health";
     rq_headers := hs; rq_params := []; rq_json := None; rq_timeout := 10 |}.

(** ** Predicates on the credential *)

(** A computation keeps a property of the credential. *)
Definition keeps {A} (I : AuthenticationManager -> Prop) (m : M A) : Prop :=
  forall w, I (auth_manager w) -> I (auth_manager (snd (m w))).




(** The exchange failed the way [except RequestException] catches: the
    call into [requests] raised one, or the reply has a status from 400 to
    599, on which [raise_for_status] raises one. *)
Definition request_failed (r : net_result) : Prop :=
  (exists msg, result r = inl (RequestException msg)) \/
  (exists resp, result r = inr resp /\ 400 <= status_code resp < 600).

(** The value [d.get(key, default)] has on a dict with these fields. *)
Definition field_or (fields : list (string * pyval)) (key : string)
    (default : pyval) : pyval :=
  match assoc key fields with Some v => v | None => default end.

(** * Properties *)

Unset Implicit Arguments.

Section Properties.

Variable env : Env.

(** ** Running the monad *)

Lemma bind_ret_run {A B} {m : M A} (k : A -> M B) {w a w'} :
  m w = (Ret a, w') -> bind m k w = k a w'.
Proof. intros H. unfold bind. rewrite H. reflexivity. Qed.

Lemma bind_raise_run {A B} {m : M A} (k : A -> M B) {w e w'} :
  m w = (Raise e, w') -> bind m k w = (Raise e, w').
Proof. intros H. unfold bind. rewrite H. reflexivity. Qed.

Lemma try_caught_run {A} {m : M A} c h {w e w'} :
  m w = (Raise e, w') -> c e = true -> try_except m c h w = h e w'.
Proof. intros H Hc. unfold try_except. rewrite H, Hc. reflexivity. Qed.

Lemma try_passed_run {A} {m : M A} c h {w e w'} :
  m w = (Raise e, w') -> c e = false -> try_except m c h w = (Raise e, w').
Proof. intros H Hc. unfold try_except. rewrite H, Hc. reflexivity. Qed.

(** The world after one exchange with the network. *)
Lemma requests_send_world rq w :
  snd (requests_send env rq w) =
  {| auth_manager := auth_manager w;
     clock := clock w + elapsed (upstream env (net_log w) rq);
     net_log := (net_log w ++ [rq])%list;
     sleeps := sleeps w |}.
Proof.
  unfold requests_send. destruct (result (upstream env (net_log w) rq)); reflexivity.
Qed.

Lemma raise_for_status_error r w :
  400 <= status_code r < 600 ->
  exists msg, raise_for_status r w = (Raise (RequestException msg), w).
Proof.
  intros [Hlo Hhi]. unfold raise_for_status.
  destruct (Z.ltb_spec (status_code r) 500) as [H5 | H5].
  - replace (400 <=? status_code r) with true by (symmetry; apply Z.leb_le; exact Hlo).
    simpl. eexists. reflexivity.
  - replace (500 <=? status_code r) with true by (symmetry; apply Z.leb_le; exact H5).
    replace (status_code r <? 600) with true by (symmetry; apply Z.ltb_lt; exact Hhi).
    rewrite andb_false_r. simpl. eexists. reflexivity.
Qed.


Lemma raise_for_status_outcome r w :
  (exists msg, raise_for_status r w = (Raise (RequestException msg), w)) \/
  raise_for_status r w = (Ret tt, w).
Proof.
  unfold raise_for_status.
  destruct ((400 <=? status_code r) && (status_code r <? 500)).
  - left. eexists. reflexivity.
  - destruct ((500 <=? status_code r) && (status_code r <? 600)).
    + left. eexists. reflexivity.
    + right. reflexivity.
Qed.


(** A wait that [time.sleep] takes. *)
Lemma time_sleep_ok secs w :
  0 <= secs <= sleep_max ->
  time_sleep secs w =
  (Ret tt, {| auth_manager := auth_manager w;
              clock := clock w + secs * 1000000;
              net_log := net_log w;
              sleeps := (sleeps w ++ [secs])%list |}).
Proof.
  intros [Hlo Hhi]. unfold time_sleep.
  replace (secs <? - sleep_max) with false
    by (symmetry; apply Z.ltb_ge; unfold sleep_max in *; lia).
  replace (sleep_max <? secs) with false by (symmetry; apply Z.ltb_ge; exact Hhi).
  replace (secs <? 0) with false by (symmetry; apply Z.ltb_ge; exact Hlo).
  reflexivity.
Qed.

Lemma time_sleep_world secs w :
  auth_manager (snd (time_sleep secs w)) = auth_manager w.
Proof.
  unfold time_sleep.
  destruct ((secs <? - sleep_max) || (sleep_max <? secs)); [reflexivity|].
  destruct (secs <? 0); reflexivity.
Qed.

(** ** The token cache *)

(** The validity test as a function of the world. *)
Lemma is_token_valid_run w :
  is_token_valid w =
  (Ret (match token (auth_manager w), token_expiry (auth_manager w) with
        | PyNone, _ => false
        | _, None => false
        | _, Some t => clock w <? t
        end), w).
Proof.
  unfold is_token_valid, bind, self_token, self_token_expiry, datetime_now, ret.
  destruct (token (auth_manager w)); simpl;
    destruct (token_expiry (auth_manager w)); reflexivity.
Qed.

(** C4: [is_token_valid] answers true exactly when a token and an expiry
    are both held and the clock reads strictly less than the expiry, and
    it hands back the world it was given. *)
Theorem is_token_valid_iff (w : World) :
  exists b : bool,
    is_token_valid w = (Ret b, w) /\
    (b = true <->
     token (auth_manager w) <> PyNone /\
     exists t, token_expiry (auth_manager w) = Some t /\ clock w < t).
Proof.
  rewrite is_token_valid_run. eexists. split; [reflexivity|].
  destruct (token (auth_manager w)) eqn:Htok;
    destruct (token_expiry (auth_manager w)) as [t|] eqn:Hexp;
    try (split; [discriminate | intros [Hn _]; exfalso; apply Hn; reflexivity]);
    try (split; [discriminate | intros [_ [t' [Ht' _]]]; discriminate]);
    (rewrite Z.ltb_lt; split;
     [ intros Hlt; split; [discriminate | exists t; split; [reflexivity | exact Hlt]]
     | intros [_ [t' [Ht' Hlt]]]; injection Ht' as <-; exact Hlt ]).
Qed.

Lemma get_token_valid w tok t :
  token (auth_manager w) = tok -> tok <> PyNone ->
  token_expiry (auth_manager w) = Some t -> clock w < t ->
  get_token env w = (Ret tok, w).
Proof.
  intros Htok Hn Hexp Hlt. unfold get_token.
  rewrite (bind_ret_run _ (is_token_valid_run w)).
  rewrite Htok, Hexp.
  replace (clock w <? t) with true by (symmetry; apply Z.ltb_lt; exact Hlt).
  destruct tok; try (exfalso; apply Hn; reflexivity);
    simpl; unfold self_token; rewrite Htok; reflexivity.
Qed.

Lemma get_token_invalid w :
  is_token_valid w = (Ret false, w) -> get_token env w = authenticate env w.
Proof.
  intros H. unfold get_token. rewrite (bind_ret_run _ H). reflexivity.
Qed.



(** ** Authentication *)

(** The world once the authentication request has been answered. *)
Lemma authenticate_request w :
  requests_post env (TOPTEX_BASE_URL env ++ "/authenticate") []
    (PyDict [("api_key", opt_str (TOPTEX_API_KEY env))]) 30 w =
  requests_send env (auth_request env) w.
Proof. reflexivity. Qed.

(** Every run of [authenticate] sends one request, and either raises in
    the world that request left, or stores the token of the reply with an
    expiry 24 hours after the clock reading. *)
Lemma authenticate_outcome w :
  let w1 := snd (requests_send env (auth_request env) w) in
  (exists e, authenticate env w = (Raise e, w1)) \/
  (exists resp data tok,
      result (upstream env (net_log w) (auth_request env)) = inr resp /\
      raise_for_status resp w1 = (Ret tt, w1) /\
      json_result resp = inr data /\
      dict_get data "token" PyNone = inr tok /\
      authenticate env w =
      (Ret tok, set_auth {| token := tok;
                            token_expiry := Some (clock w1 + timedelta_hours 24) |} w1)).
Proof.
  intros w1. subst w1. rewrite requests_send_world.
  unfold authenticate, try_except, bind. rewrite authenticate_request.
  unfold requests_send.
  destruct (result (upstream env (net_log w) (auth_request env))) as [e | resp] eqn:Hres.
  - left. destruct (is_RequestException e); eexists; reflexivity.
  - match goal with |- context [raise_for_status resp ?w1] =>
      destruct (raise_for_status_outcome resp w1) as [[msg Hst] | Hst] end;
      rewrite Hst.
    + left. eexists. reflexivity.
    + unfold response_json.
      destruct (json_result resp) as [e | data] eqn:Hjson; simpl.
      * left. destruct (is_RequestException e); eexists; reflexivity.
      * destruct (dict_get data "token" PyNone) as [e | tok] eqn:Hget; simpl.
        -- left. destruct (is_RequestException e); eexists; reflexivity.
        -- right. exists resp, data, tok. repeat split; try assumption.
Qed.

(** C6: a call of [authenticate] that returns has sent exactly one
    request, the POST to the authentication endpoint; what it returns and
    stores is the [token] entry of the JSON reply; the stored expiry is
    the clock reading plus 24 hours, hence strictly later than that
    reading; and the stored credential does not depend on the one held
    before. *)
Theorem authenticate_success (w w' : World) (tok : pyval) :
  authenticate env w = (Ret tok, w') ->
  net_log w' = (net_log w ++ [auth_request env])%list /\
  rq_method (auth_request env) = "POST" /\
  rq_url (auth_request env) = TOPTEX_BASE_URL env ++ "/authenticate" /\
  (exists resp data,
      result (upstream env (net_log w) (auth_request env)) = inr resp /\
      json_result resp = inr data /\
      dict_get data "token" PyNone = inr tok) /\
  auth_manager w' =
    {| token := tok; token_expiry := Some (clock w' + timedelta_hours 24) |} /\
  clock w' < clock w' + timedelta_hours 24.
Proof.
  intros Hrun.
  destruct (authenticate_outcome w) as [[e He] | [resp [data [tok' H]]]].
  - rewrite He in Hrun. discriminate.
  - destruct H as [Hres [_ [Hjson [Hget Heq]]]].
    rewrite Heq in Hrun. injection Hrun as <- <-.
    rewrite requests_send_world. simpl.
    repeat split; try reflexivity.
    + exists resp, data. repeat split; assumption.
    + unfold timedelta_hours. lia.
Qed.

(** A failed authentication request: the error is turned into
    HTTPException 503 in the world that request left. *)
Lemma authenticate_failure w :
  request_failed (upstream env (net_log w) (auth_request env)) ->
  exists detail,
    authenticate env w =
    (Raise (HTTPException 503 detail), snd (requests_send env (auth_request env) w)).
Proof.
  intros Hfail. rewrite requests_send_world.
  unfold authenticate, try_except, bind. rewrite authenticate_request.
  unfold requests_send.
  destruct Hfail as [[msg Hres] | [resp [Hres Hst]]]; rewrite Hres.
  - simpl. eexists. reflexivity.
  - match goal with |- context [raise_for_status resp ?w1] =>
      destruct (raise_for_status_error resp w1 Hst) as [msg Hraise] end.
    rewrite Hraise. simpl. eexists. reflexivity.
Qed.

(** C5, amended: when the authentication request raises a
    RequestException (network failure, timeout) or is answered with a
    status from 400 to 599, [authenticate] raises HTTPException 503 after
    that one request and the stored token and expiry are as before. *)
Theorem authenticate_failure_keeps_credential (w : World) :
  request_failed (upstream env (net_log w) (auth_request env)) ->
  exists detail w',
    authenticate env w = (Raise (HTTPException 503 detail), w') /\
    auth_manager w' = auth_manager w /\
    net_log w' = (net_log w ++ [auth_request env])%list.
Proof.
  intros Hfail. destruct (authenticate_failure w Hfail) as [detail Hrun].
  exists detail, (snd (requests_send env (auth_request env) w)).
  split; [exact Hrun|]. rewrite requests_send_world. split; reflexivity.
Qed.

(** ** Token acquisition inside a handler *)

Lemma authenticate_sleeps w : sleeps (snd (authenticate env w)) = sleeps w.
Proof.
  destruct (authenticate_outcome w) as [[e He] | [resp [data [tok H]]]].
  - rewrite He. simpl. rewrite requests_send_world. reflexivity.
  - destruct H as [_ [_ [_ [_ Heq]]]]. rewrite Heq. simpl.
    rewrite requests_send_world. reflexivity.
Qed.

Lemma get_token_sleeps w : sleeps (snd (get_token env w)) = sleeps w.
Proof.
  unfold get_token. rewrite (bind_ret_run _ (is_token_valid_run w)).
  match goal with |- context [negb ?b] => destruct b end; simpl.
  - reflexivity.
  - apply authenticate_sleeps.
Qed.

Lemma get_toptex_headers_sleeps w :
  sleeps (snd (get_toptex_headers env w)) = sleeps w.
Proof.
  unfold get_toptex_headers, bind.
  pose proof (get_token_sleeps w) as H.
  destruct (get_token env w) as [[tok | e] w1]; exact H.
Qed.

(** ** The decorated handlers *)

(** Calling a decorated handler runs the wrapper once around the call of
    the [async def], which hands back the coroutine at the first attempt. *)
Lemma call_returns_coroutine e w :
  exists body, call env e w = (Ret (Some body), w) /\
               forall w0, body w0 = handler_shape env e w0.
Proof.
  destruct e; eexists; (split; [reflexivity | intros w0; reflexivity]).
Qed.

(** Awaiting a decorated handler is running its body once. *)
Lemma invoke_handler e w : invoke env e w = handler_shape env e w.
Proof. destruct e; reflexivity. Qed.

(** The body of a handler, once the headers are there and the upstream
    answers with an error status or fails on the transport. *)
Lemma handler_upstream_error e w hs w1 :
  get_toptex_headers env w = (Ret hs, w1) ->
  request_failed (upstream env (net_log w1) (data_request env e hs)) ->
  exists detail,
    handler_shape env e w =
    (Raise (HTTPException 503 detail),
     snd (requests_send env (data_request env e hs) w1)).
Proof.
  intros Hhs Hfail. rewrite requests_send_world.
  unfold handler_shape, try_except.
  rewrite (bind_ret_run _ Hhs). unfold bind, requests_send.
  destruct Hfail as [[msg Hres] | [resp [Hres Hst]]]; rewrite Hres.
  - simpl. eexists. reflexivity.
  - match goal with |- context [raise_for_status resp ?w2] =>
      destruct (raise_for_status_error resp w2 Hst) as [msg Hraise] end.
    rewrite Hraise. simpl. eexists. reflexivity.
Qed.

(** C2: a handler whose upstream request is answered with a 4xx status
    raises HTTPException 503 after that single request: the log of
    requests grows by exactly the one data request after the token was
    obtained, and [time.sleep] is never called. *)
Theorem client_error_single_attempt
    (e : endpoint) (w w1 : World) (hs : list (string * string)) (resp : response) :
  get_toptex_headers env w = (Ret hs, w1) ->
  result (upstream env (net_log w1) (data_request env e hs)) = inr resp ->
  400 <= status_code resp < 500 ->
  exists detail w',
    invoke env e w = (Raise (HTTPException 503 detail), w') /\
    net_log w' = (net_log w1 ++ [data_request env e hs])%list /\
    sleeps w' = sleeps w.
Proof.
  intros Hhs Hres Hst. rewrite invoke_handler.
  destruct (handler_upstream_error e w hs w1 Hhs) as [detail Hrun].
  { right. exists resp. split; [exact Hres | lia]. }
  exists detail, (snd (requests_send env (data_request env e hs) w1)).
  split; [exact Hrun|]. rewrite requests_send_world. simpl.
  split; [reflexivity|].
  pose proof (get_toptex_headers_sleeps w) as Hs. rewrite Hhs in Hs. exact Hs.
Qed.

(** What every handler does when the credential is not valid and the
    authentication request fails: the HTTPException 503 raised by
    [authenticate] passes the handler and the retry wrapper, which catch
    RequestException only, so the call ends with that error after the
    one authentication request, with no data request and no sleep. *)
Theorem token_failure_aborts_call (e : endpoint) (w : World) :
  is_token_valid w = (Ret false, w) ->
  request_failed (upstream env (net_log w) (auth_request env)) ->
  exists detail w',
    invoke env e w = (Raise (HTTPException 503 detail), w') /\
    net_log w' = (net_log w ++ [auth_request env])%list /\
    sleeps w' = sleeps w /\
    auth_manager w' = auth_manager w.
Proof.
  intros Hinvalid Hfail. rewrite invoke_handler.
  destruct (authenticate_failure w Hfail) as [detail Hauth].
  exists detail, (snd (requests_send env (auth_request env) w)).
  split.
  - unfold handler_shape, get_toptex_headers.
    rewrite <- (get_token_invalid w Hinvalid) in Hauth.
    apply try_passed_run; [|reflexivity].
    apply bind_raise_run. apply bind_raise_run. exact Hauth.
  - rewrite requests_send_world. repeat split.
Qed.

(** ** The retry wrapper around a function that lets the error through *)

Lemma fetch_fails rq w :
  request_failed (upstream env (net_log w) rq) ->
  exists msg,
    fetch env rq w = (Raise (RequestException msg), snd (requests_send env rq w)).
Proof.
  intros Hfail. rewrite requests_send_world. unfold fetch, bind, requests_send.
  destruct Hfail as [[msg Hres] | [resp [Hres Hst]]]; rewrite Hres.
  - eexists. reflexivity.
  - match goal with |- context [raise_for_status resp ?w1] =>
      destruct (raise_for_status_error resp w1 Hst) as [msg Hraise] end.
    rewrite Hraise. eexists. reflexivity.
Qed.

Lemma retry_loop_exhausts max_retries backoff_factor rq n : forall k w,
  0 <= backoff_factor ->
  backoff_factor * 2 ^ (max_retries - 2) <= sleep_max ->
  (forall log, request_failed (upstream env log rq)) ->
  Z.of_nat (k + S n) = max_retries ->
  exists msg w',
    retry_loop max_retries backoff_factor (fetch env rq)
      (map Z.of_nat (seq k (S n))) w = (Raise (RequestException msg), w') /\
    net_log w' = (net_log w ++ repeat rq (S n))%list /\
    sleeps w' =
      (sleeps w ++ map (fun i => backoff_factor * 2 ^ Z.of_nat i) (seq k n))%list.
Proof.
  induction n as [|n IH]; intros k w Hb Hcap Hfail Hmax.
  - destruct (fetch_fails rq w (Hfail _)) as [msg Hrun].
    exists msg, (snd (requests_send env rq w)). split.
    + cbn [seq map retry_loop].
      rewrite (try_caught_run _ _ (bind_raise_run _ Hrun) eq_refl).
      replace (Z.of_nat k =? max_retries - 1) with true
        by (symmetry; apply Z.eqb_eq; lia).
      reflexivity.
    + rewrite requests_send_world. simpl. rewrite app_nil_r. split; reflexivity.
  - destruct (fetch_fails rq w (Hfail _)) as [msg0 Hrun].
    set (w1 := snd (requests_send env rq w)) in *.
    set (wait_time := backoff_factor * 2 ^ Z.of_nat k).
    set (w2 := {| auth_manager := auth_manager w1;
                  clock := clock w1 + wait_time * 1000000;
                  net_log := net_log w1;
                  sleeps := (sleeps w1 ++ [wait_time])%list |}).
    assert (Hsleep : time_sleep wait_time w1 = (Ret tt, w2)).
    { apply time_sleep_ok. unfold wait_time. split.
      - apply Z.mul_nonneg_nonneg; [exact Hb | apply Z.pow_nonneg; lia].
      - apply (Z.le_trans _ (backoff_factor * 2 ^ (max_retries - 2))); [|exact Hcap].
        apply Z.mul_le_mono_nonneg_l; [exact Hb|].
        apply Z.pow_le_mono_r; lia. }
    destruct (IH (S k) w2 Hb Hcap Hfail) as [msg [w' [Hrec [Hlog Hsl]]]]; [lia|].
    exists msg, w'. split; [|split].
    + change (seq k (S (S n))) with (k :: seq (S k) (S n)).
      cbn [map retry_loop].
      rewrite (try_caught_run _ _ (bind_raise_run _ Hrun) eq_refl).
      replace (Z.of_nat k =? max_retries - 1) with false
        by (symmetry; apply Z.eqb_neq; lia).
      cbv zeta. fold wait_time.
      rewrite (bind_ret_run _ Hsleep). exact Hrec.
    + rewrite Hlog. subst w2 w1. simpl. rewrite requests_send_world. simpl.
      rewrite <- app_assoc. reflexivity.
    + rewrite Hsl. subst w2 w1. simpl. rewrite requests_send_world. simpl.
      rewrite <- app_assoc. reflexivity.
Qed.

(** Around a function that raises the RequestException on every call, the
    wrapper makes [max_retries] calls, sleeps [backoff_factor * 2 ** i]
    after the failed call number [i] (from 0) except the last, and raises
    the last error, as long as the longest of these waits is one
    [time.sleep] takes. *)
Lemma retry_with_backoff_exhausts max_retries backoff_factor rq w :
  0 < max_retries -> 0 <= backoff_factor ->
  backoff_factor * 2 ^ (max_retries - 2) <= sleep_max ->
  (forall log, request_failed (upstream env log rq)) ->
  exists msg w',
    retry_with_backoff max_retries backoff_factor (fetch env rq) w
      = (Raise (RequestException msg), w') /\
    net_log w' = (net_log w ++ repeat rq (Z.to_nat max_retries))%list /\
    sleeps w' =
      (sleeps w ++ map (fun i => backoff_factor * 2 ^ i) (range (max_retries - 1)))%list.
Proof.
  intros Hmax Hb Hcap Hfail. unfold retry_with_backoff, range.
  destruct (Z.to_nat max_retries) as [|n] eqn:Hn; [lia|].
  replace (Z.to_nat (max_retries - 1)) with n by lia.
  rewrite map_map.
  apply (retry_loop_exhausts max_retries backoff_factor rq n 0%nat w Hb Hcap Hfail).
  lia.
Qed.

(** An exception that is not a RequestException leaves the wrapper at
    the attempt that raised it. *)
Lemma retry_loop_passes {R} max_retries backoff_factor (func : M R) attempt rest w e w' :
  func w = (Raise e, w') -> is_RequestException e = false ->
  retry_loop max_retries backoff_factor func (attempt :: rest) w = (Raise e, w').
Proof.
  intros Hrun Hcls. cbn [retry_loop].
  apply try_passed_run; [|exact Hcls]. apply bind_raise_run. exact Hrun.
Qed.

(** ** Webhook *)

(** C9: with a non-empty secret configured, a webhook request whose
    [x-odoo-signature] header is missing or different is answered with
    HTTPException 401 in an unchanged world: nothing was sent upstream
    and the credential was not touched. *)
Theorem webhook_bad_signature_rejected (req : Request) (w : World) (secret : string) :
  WEBHOOK_SECRET env = Some secret ->
  secret <> "" ->
  headers_get "x-odoo-signature" (headers req) <> Some secret ->
  from_odoo env req w = (Raise (HTTPException 401 "Unauthorized"), w).
Proof.
  intros Hsecret Hne Hsig. unfold from_odoo. apply bind_raise_run.
  unfold verify_webhook_secret. rewrite Hsecret.
  destruct secret as [|c rest]; [exfalso; apply Hne; reflexivity|].
  simpl.
  destruct (headers_get "x-odoo-signature" (headers req)) as [given|]; simpl.
  - destruct (String.eqb_spec given (String c rest)) as [Heq | Hneq]; simpl.
    + exfalso. apply Hsig. rewrite Heq. reflexivity.
    + reflexivity.
  - reflexivity.
Qed.

(** ** Health check *)

(** C10: [health_check] returns a status object in every world and for
    every upstream: "healthy" when the probe was answered (with "connected"
    for a 200 and "disconnected" otherwise), "degraded" when anything was
    raised on the way; it never raises. *)
Theorem health_check_total (w : World) :
  exists (st api : string) (w' : World),
    health_check env w =
    (Ret (PyDict [("status", PyStr st); ("toptex_api", PyStr api)]), w') /\
    ((st = "healthy" /\ (api = "connected" \/ api = "disconnected")) \/
     (st = "degraded" /\ api = "disconnected")).
Proof.
  unfold health_check, try_except, bind.
  destruct (get_toptex_headers env w) as [[hs | e] w1].
  - destruct (requests_get env (TOPTEX_BASE_URL env ++ "/health") hs [] 10 w1)
      as [[resp | e] w2].
    + simpl. do 3 eexists. split; [reflexivity|]. left. split; [reflexivity|].
      destruct (status_code resp =? 200); [left | right]; reflexivity.
    + simpl. do 3 eexists. split; [reflexivity|]. right. split; reflexivity.
  - simpl. do 3 eexists. split; [reflexivity|]. right. split; reflexivity.
Qed.

(** ** What the process does to the credential *)

Section Keeps.

Variable I : AuthenticationManager -> Prop.

Lemma keeps_same {A} (m : M A) :
  (forall w, auth_manager (snd (m w)) = auth_manager w) -> keeps I m.
Proof. intros H w Hw. rewrite H. exact Hw. Qed.









Lemma keeps_time_sleep secs : keeps I (time_sleep secs).
Proof.
  apply keeps_same. intros w. apply time_sleep_world.
Qed.


(** The property holds of whatever [authenticate] stores. *)
Hypothesis stored_ok : forall log resp data tok t,
  result (upstream env log (auth_request env)) = inr resp ->
  ~ (400 <= status_code resp < 600) ->
  json_result resp = inr data ->
  dict_get data "token" PyNone = inr tok ->
  I {| token := tok; token_expiry := Some t |}.













End Keeps.


End Properties.

(** * The properties on explicit runs *)

(** C1: [get_products] against an upstream that answers 503 to every
    data request makes a single data request, never sleeps and raises
    HTTPException 503, because the handler turns the RequestException into
    an HTTPException before the wrapper can see it; the same wrapper
    around a function that lets the RequestException through makes the
    three requests and sleeps 1 then 2 seconds. *)
Theorem get_products_transient_failure_single_attempt :
  (forall log, request_failed (upstream env_503 log (data_request env_503 list_products bearer_T0))) /\
  fst (invoke env_503 list_products (initial 0)) =
    Raise (HTTPException 503
      "TopTex API error: 503 Server Error: Service Unavailable for url: https://api.toptex.io/v3/products") /\
  net_log (snd (invoke env_503 list_products (initial 0))) =
    [auth_request env_503; data_request env_503 list_products bearer_T0] /\
  sleeps (snd (invoke env_503 list_products (initial 0))) = [] /\
  net_log (snd (retry_with_backoff 3 1
                  (fetch env_503 (data_request env_503 list_products bearer_T0))
                  (initial 0))) =
    repeat (data_request env_503 list_products bearer_T0) 3 /\
  sleeps (snd (retry_with_backoff 3 1
                 (fetch env_503 (data_request env_503 list_products bearer_T0))
                 (initial 0))) = [1; 2].
Proof.
  split.
  - intros log. right. eexists. split; [reflexivity | simpl; lia].
  - repeat split; vm_compute; reflexivity.
Qed.

Lemma client_error_single_attempt_witness :
  exists detail w',
    invoke env_404 list_products (initial 0) = (Raise (HTTPException 503 detail), w') /\
    net_log w' =
      (net_log (snd (get_toptex_headers env_404 (initial 0)))
       ++ [data_request env_404 list_products bearer_T0])%list /\
    sleeps w' = sleeps (initial 0).
Proof.
  apply (client_error_single_attempt env_404 list_products (initial 0)
           (snd (get_toptex_headers env_404 (initial 0))) bearer_T0
           {| status_code := 404; reason := "Not Found";
              url := base_url ++ "/products"; json_result := no_json |}).
  - vm_compute. reflexivity.
  - vm_compute. reflexivity.
  - simpl. lia.
Defined.


(** C5 as stated fails: a reply with status 300 is not a 2xx, yet
    [authenticate] does not raise on it and replaces the credential. *)
Lemma authenticate_non_2xx_counterexample :
  ~ (forall resp,
       result (upstream env_auth_300 (net_log (holding 100 200))
                 (auth_request env_auth_300)) = inr resp ->
       ~ (200 <= status_code resp < 300) ->
       exists detail w',
         authenticate env_auth_300 (holding 100 200)
           = (Raise (HTTPException 503 detail), w') /\
         auth_manager w' = auth_manager (holding 100 200)).
Proof.
  intros Hclaim.
  edestruct Hclaim as [detail [w' [Hrun _]]].
  - vm_compute. reflexivity.
  - simpl. lia.
  - vm_compute in Hrun. discriminate.
Qed.

Lemma authenticate_failure_keeps_credential_witness :
  exists detail w',
    authenticate env_auth_500 (holding 100 200)
      = (Raise (HTTPException 503 detail), w') /\
    auth_manager w' = auth_manager (holding 100 200) /\
    net_log w' = (net_log (holding 100 200) ++ [auth_request env_auth_500])%list.
Proof.
  apply (authenticate_failure_keeps_credential env_auth_500 (holding 100 200)).
  right. eexists. split.
  - vm_compute. reflexivity.
  - simpl. lia.
Defined.

Lemma authenticate_success_witness :
  net_log (snd (authenticate env_ok (initial 0))) =
    (net_log (initial 0) ++ [auth_request env_ok])%list /\
  rq_method (auth_request env_ok) = "POST" /\
  rq_url (auth_request env_ok) = TOPTEX_BASE_URL env_ok ++ "/authenticate" /\
  (exists resp data,
      result (upstream env_ok (net_log (initial 0)) (auth_request env_ok)) = inr resp /\
      json_result resp = inr data /\
      dict_get data "token" PyNone = inr (PyStr "T0")) /\
  auth_manager (snd (authenticate env_ok (initial 0))) =
    {| token := PyStr "T0";
       token_expiry := Some (clock (snd (authenticate env_ok (initial 0)))
                             + timedelta_hours 24) |} /\
  clock (snd (authenticate env_ok (initial 0)))
    < clock (snd (authenticate env_ok (initial 0))) + timedelta_hours 24.
Proof.
  apply (authenticate_success env_ok (initial 0)
           (snd (authenticate env_ok (initial 0))) (PyStr "T0")).
  vm_compute. reflexivity.
Defined.



(** C8: [get_products] in a fresh process, with the first token
    acquisition refused at the socket and every later request due to
    succeed: the transient failure is not retried although the budget is
    three attempts; the call ends with the authentication error after
    that single request and without a sleep. The RequestException is
    turned into an HTTPException before the wrapper can see it, as for
    the data request of C1. *)
Lemma token_failure_not_retried :
  request_failed (upstream env_down_once [] (auth_request env_down_once)) /\
  ~ request_failed (upstream env_down_once [auth_request env_down_once]
                      (auth_request env_down_once)) /\
  fst (invoke env_down_once list_products (initial 0)) =
    Raise (HTTPException 503 "Authentication failed: Connection refused") /\
  net_log (snd (invoke env_down_once list_products (initial 0))) =
    [auth_request env_down_once] /\
  sleeps (snd (invoke env_down_once list_products (initial 0))) = [].
Proof.
  split; [|split].
  - left. eexists. reflexivity.
  - intros [[msg Hmsg] | [resp [Hresp Hst]]].
    + vm_compute in Hmsg. discriminate.
    + vm_compute in Hresp. injection Hresp as <-. simpl in Hst. lia.
  - repeat split; vm_compute; reflexivity.
Qed.

Lemma token_failure_aborts_call_witness :
  exists detail w',
    invoke env_down_once list_products (initial 0)
      = (Raise (HTTPException 503 detail), w') /\
    net_log w' = (net_log (initial 0) ++ [auth_request env_down_once])%list /\
    sleeps w' = sleeps (initial 0) /\
    auth_manager w' = auth_manager (initial 0).
Proof.
  apply (token_failure_aborts_call env_down_once list_products (initial 0)).
  - reflexivity.
  - left. eexists. reflexivity.
Defined.

Lemma webhook_bad_signature_rejected_witness :
  from_odoo env_ok forged_webhook (initial 0)
    = (Raise (HTTPException 401 "Unauthorized"), initial 0).
Proof.
  apply (webhook_bad_signature_rejected env_ok forged_webhook (initial 0) "s3cret").
  - reflexivity.
  - discriminate.
  - simpl. discriminate.
Defined.

(** * Further properties of the module *)


(** A handler that answers every RequestException with an HTTPException
    lets no RequestException out. *)
Lemma try_converts {A} (m : M A) (status : Z) (detail : exn -> string) w e w' :
  try_except m is_RequestException
    (fun x => raise (HTTPException status (detail x))) w = (Raise e, w') ->
  is_RequestException e = false.
Proof.
  unfold try_except, raise. destruct (m w) as [[a | x] w1]; [discriminate|].
  destruct (is_RequestException x) eqn:Hx; intros H; injection H as <- _.
  - reflexivity.
  - exact Hx.
Qed.

(** ** The retry wrapper, for any decorated function *)

Section RetryWrapper.

Context {R : Type}.
Variable func : M R.

(** X1: with [max_retries] zero or negative the loop body never runs:
    the decorated function is not called, nothing changes and the wrapper
    returns [None]. *)
Theorem retry_with_backoff_no_attempts (max_retries backoff_factor : Z) (w : World) :
  max_retries <= 0 ->
  retry_with_backoff max_retries backoff_factor func w = (Ret None, w).
Proof.
  intros Hmax. unfold retry_with_backoff, range.
  replace (Z.to_nat max_retries) with 0%nat by lia. reflexivity.
Qed.





(** X4: an exception that is not a RequestException ends the wrapper at
    the first call: it is raised as it is, in the world that call left,
    with no sleep and no second call. *)
Theorem retry_with_backoff_passes_other_errors
    (max_retries backoff_factor : Z) (w w' : World) (e : exn) :
  0 < max_retries ->
  func w = (Raise e, w') -> is_RequestException e = false ->
  retry_with_backoff max_retries backoff_factor func w = (Raise e, w').
Proof.
  intros Hmax Hrun Hcls. unfold retry_with_backoff, range.
  destruct (Z.to_nat max_retries) as [|n] eqn:Hn; [lia|].
  cbn [seq map]. apply retry_loop_passes; assumption.
Qed.

End RetryWrapper.

Lemma retry_with_backoff_no_attempts_witness :
  retry_with_backoff 0 1 (fetch env_ok (auth_request env_ok)) (initial 0)
    = (Ret None, initial 0).
Proof.
  apply (retry_with_backoff_no_attempts (fetch env_ok (auth_request env_ok)) 0 1 (initial 0)).
  lia.
Defined.




Lemma retry_with_backoff_passes_other_errors_witness :
  retry_with_backoff 3 1 (authenticate env_down_once) (initial 0)
    = (Raise (HTTPException 503 "Authentication failed: Connection refused"),
       snd (authenticate env_down_once (initial 0))).
Proof.
  apply (retry_with_backoff_passes_other_errors (authenticate env_down_once)
           3 1 (initial 0)).
  - lia.
  - vm_compute. reflexivity.
  - reflexivity.
Defined.

(** ** The life of a token *)

Section TokenLife.

Variable env : Env.

(** What [get_token] returns is what the manager holds afterwards, and it
    holds an expiry with it. *)
Lemma get_token_returns_stored w tok w1 :
  get_token env w = (Ret tok, w1) ->
  token (auth_manager w1) = tok /\
  exists t, token_expiry (auth_manager w1) = Some t.
Proof.
  unfold get_token. rewrite (bind_ret_run _ (is_token_valid_run w)).
  match goal with |- context [negb ?b] => destruct b eqn:Hvalid end; cbn [negb].
  - unfold self_token. intros H. injection H as <- <-. split; [reflexivity|].
    destruct (token_expiry (auth_manager w)) as [t|].
    + exists t. reflexivity.
    + destruct (token (auth_manager w)); discriminate.
  - intros Hauth.
    destruct (authenticate_outcome env w) as [[e He] | [resp [data [tok' H]]]].
    + rewrite He in Hauth. discriminate.
    + destruct H as [_ [_ [_ [_ Heq]]]]. rewrite Heq in Hauth.
      injection Hauth as <- <-. split; [reflexivity | eexists; reflexivity].
Qed.

(** X5: whatever makes [authenticate] raise, it has sent its one request,
    the stored token and expiry are as before, and the exception is not
    a RequestException (so no [except RequestException] around a caller
    will ever catch an authentication failure). *)
Theorem authenticate_raise_keeps_credential (w w' : World) (e : exn) :
  authenticate env w = (Raise e, w') ->
  auth_manager w' = auth_manager w /\
  net_log w' = (net_log w ++ [auth_request env])%list /\
  is_RequestException e = false.
Proof.
  intros Hrun. split; [|split].
  - destruct (authenticate_outcome env w) as [[e0 He] | [resp [data [tok H]]]].
    + rewrite He in Hrun. injection Hrun as _ <-.
      rewrite requests_send_world. reflexivity.
    + destruct H as [_ [_ [_ [_ Heq]]]]. rewrite Heq in Hrun. discriminate.
  - destruct (authenticate_outcome env w) as [[e0 He] | [resp [data [tok H]]]].
    + rewrite He in Hrun. injection Hrun as _ <-.
      rewrite requests_send_world. reflexivity.
    + destruct H as [_ [_ [_ [_ Heq]]]]. rewrite Heq in Hrun. discriminate.
  - unfold authenticate in Hrun.
    exact (try_converts _ 503 (fun x => "Authentication failed: " ++ exn_str x)
             w e w' Hrun).
Qed.

(** X6: a token obtained by [authenticate] is served from the cache by
    [get_token], with no request, at every clock reading less than 24
    hours after the one at which it was stored; from exactly 24 hours on,
    [get_token] authenticates again. *)
Theorem authenticate_then_get_token (w w' : World) (tok : pyval) (d : Z) :
  authenticate env w = (Ret tok, w') -> tok <> PyNone ->
  (d < timedelta_hours 24 ->
   get_token env (snd (tick d w')) = (Ret tok, snd (tick d w'))) /\
  (timedelta_hours 24 <= d ->
   get_token env (snd (tick d w')) = authenticate env (snd (tick d w'))).
Proof.
  intros Hrun Hn.
  destruct (authenticate_outcome env w) as [[e He] | [resp [data [tok' H]]]].
  { rewrite He in Hrun. discriminate. }
  destruct H as [_ [_ [_ [_ Heq]]]]. rewrite Heq in Hrun.
  injection Hrun as <- <-. split; intros Hd.
  - apply (get_token_valid env _ tok'
             (clock (snd (requests_send env (auth_request env) w))
              + timedelta_hours 24)).
    + reflexivity.
    + exact Hn.
    + reflexivity.
    + simpl. lia.
  - apply get_token_invalid. rewrite is_token_valid_run. cbn [tick snd set_auth
      auth_manager token token_expiry clock].
    replace (_ + d <? _ + timedelta_hours 24) with false
      by (symmetry; apply Z.ltb_ge; lia).
    destruct tok'; reflexivity.
Qed.

(** X7: a reply accepted without a token is not cached: after
    [authenticate] returned [None], [get_token] authenticates again at
    every later call, whatever the clock reads. *)
Theorem token_None_never_cached (w w' : World) (d : Z) :
  authenticate env w = (Ret PyNone, w') ->
  get_token env (snd (tick d w')) = authenticate env (snd (tick d w')).
Proof.
  intros Hrun. apply get_token_invalid. rewrite is_token_valid_run.
  assert (Htok : token (auth_manager (snd (tick d w'))) = PyNone).
  { destruct (authenticate_outcome env w) as [[e He] | [resp [data [tok' H]]]].
    - rewrite He in Hrun. discriminate.
    - destruct H as [_ [_ [_ [_ Heq]]]]. rewrite Heq in Hrun.
      injection Hrun as -> <-. reflexivity. }
  rewrite Htok. reflexivity.
Qed.

(** X8: the headers a handler gets carry, as bearer, the [str] of the
    token the manager holds at that moment, followed by the JSON content
    type. *)
Theorem get_toptex_headers_carry_stored_token
    (w w1 : World) (hs : list (string * string)) :
  get_toptex_headers env w = (Ret hs, w1) ->
  hs = [("Authorization", "Bearer " ++ py_str env (token (auth_manager w1)));
        ("Content-Type", "application/json")].
Proof.
  unfold get_toptex_headers, bind.
  destruct (get_token env w) as [[tok | e] w0] eqn:Hget; [|discriminate].
  intros H. injection H as <- <-.
  destruct (get_token_returns_stored w tok w0 Hget) as [-> _]. reflexivity.
Qed.

End TokenLife.

Lemma authenticate_raise_keeps_credential_witness :
  auth_manager (snd (authenticate env_auth_500 (holding 100 200)))
    = auth_manager (holding 100 200) /\
  net_log (snd (authenticate env_auth_500 (holding 100 200)))
    = (net_log (holding 100 200) ++ [auth_request env_auth_500])%list /\
  is_RequestException
    (HTTPException 503
       "Authentication failed: 500 Server Error: Internal Server Error for url: https://api.toptex.io/v3/authenticate")
    = false.
Proof.
  apply (authenticate_raise_keeps_credential env_auth_500 (holding 100 200)).
  vm_compute. reflexivity.
Defined.

Lemma authenticate_then_get_token_witness :
  (5 < timedelta_hours 24 ->
   get_token env_ok (snd (tick 5 (snd (authenticate env_ok (initial 0)))))
     = (Ret (PyStr "T0"), snd (tick 5 (snd (authenticate env_ok (initial 0)))))) /\
  (timedelta_hours 24 <= 5 ->
   get_token env_ok (snd (tick 5 (snd (authenticate env_ok (initial 0)))))
     = authenticate env_ok (snd (tick 5 (snd (authenticate env_ok (initial 0)))))).
Proof.
  apply (authenticate_then_get_token env_ok (initial 0)
           (snd (authenticate env_ok (initial 0))) (PyStr "T0") 5).
  - vm_compute. reflexivity.
  - discriminate.
Defined.

Lemma token_None_never_cached_witness :
  get_token env_no_token (snd (tick 5 (snd (authenticate env_no_token (initial 0)))))
    = authenticate env_no_token
        (snd (tick 5 (snd (authenticate env_no_token (initial 0))))).
Proof.
  apply (token_None_never_cached env_no_token (initial 0)
           (snd (authenticate env_no_token (initial 0))) 5).
  vm_compute. reflexivity.
Defined.

Lemma get_toptex_headers_carry_stored_token_witness :
  bearer_T0 =
  [("Authorization",
    "Bearer " ++ py_str env_ok
                   (token (auth_manager (snd (get_toptex_headers env_ok (initial 0))))));
   ("Content-Type", "application/json")].
Proof.
  apply (get_toptex_headers_carry_stored_token env_ok (initial 0)
           (snd (get_toptex_headers env_ok (initial 0))) bearer_T0).
  vm_compute. reflexivity.
Defined.

(** ** The fifteen handlers *)

Section Handlers.

Variable env : Env.

Lemma raise_for_status_ok r w :
  ~ (400 <= status_code r < 600) -> raise_for_status r w = (Ret tt, w).
Proof.
  intros Hst. unfold raise_for_status.
  destruct (Z.leb_spec 400 (status_code r)); destruct (Z.ltb_spec (status_code r) 500);
    destruct (Z.leb_spec 500 (status_code r)); destruct (Z.ltb_spec (status_code r) 600);
    simpl; try reflexivity; lia.
Qed.

Lemma get_token_log w :
  exists sent,
    net_log (snd (get_token env w)) = (net_log w ++ sent)%list /\
    (sent = [] \/ sent = [auth_request env]).
Proof.
  unfold get_token. rewrite (bind_ret_run _ (is_token_valid_run w)).
  match goal with |- context [negb ?b] => destruct b end; cbn [negb].
  - exists []. split; [simpl; rewrite app_nil_r; reflexivity | left; reflexivity].
  - exists [auth_request env]. split; [|right; reflexivity].
    destruct (authenticate_outcome env w) as [[e He] | [resp [data [tok H]]]].
    + rewrite He. simpl. rewrite requests_send_world. reflexivity.
    + destruct H as [_ [_ [_ [_ Heq]]]]. rewrite Heq. simpl.
      rewrite requests_send_world. reflexivity.
Qed.

Lemma get_toptex_headers_log w :
  exists sent,
    net_log (snd (get_toptex_headers env w)) = (net_log w ++ sent)%list /\
    (sent = [] \/ sent = [auth_request env]).
Proof.
  destruct (get_token_log w) as [sent [Hlog Hsent]]. exists sent. split; [|exact Hsent].
  unfold get_toptex_headers, bind.
  destruct (get_token env w) as [[tok | e] w1]; exact Hlog.
Qed.

(** Where a handler leaves the world: after its one upstream request when
    it got its headers, and where the headers failed otherwise. *)
Lemma handler_shape_world e w :
  snd (handler_shape env e w) =
  match get_toptex_headers env w with
  | (Ret hs, w1) => snd (requests_send env (data_request env e hs) w1)
  | (Raise _, w1) => w1
  end.
Proof.
  unfold handler_shape, try_except, bind.
  destruct (get_toptex_headers env w) as [[hs | x] w1].
  - rewrite requests_send_world. unfold requests_send.
    destruct (result (upstream env (net_log w1) (data_request env e hs)))
      as [x | resp].
    + destruct (is_RequestException x); reflexivity.
    + match goal with |- context [raise_for_status resp ?w2] =>
        destruct (raise_for_status_outcome resp w2) as [[msg Hst] | Hst] end;
        rewrite Hst; [reflexivity|].
      destruct e; unfold on_success, response_json;
        try reflexivity;
        (destruct (json_result resp) as [x | v]; simpl;
         [destruct (is_RequestException x); reflexivity | reflexivity]).
  - destruct (is_RequestException x); reflexivity.
Qed.

(** X9: awaiting a decorated handler never sleeps and never sends its
    upstream request twice: in every world and for every upstream, the
    log grows by at most one authentication request followed by at most
    one data request, and the list of sleeps is unchanged. *)
Theorem invoke_never_retries (e : endpoint) (w : World) :
  sleeps (snd (invoke env e w)) = sleeps w /\
  exists auth_part data_part hs,
    net_log (snd (invoke env e w)) = (net_log w ++ auth_part ++ data_part)%list /\
    (auth_part = [] \/ auth_part = [auth_request env]) /\
    (data_part = [] \/ data_part = [data_request env e hs]).
Proof.
  rewrite invoke_handler, handler_shape_world.
  pose proof (get_toptex_headers_sleeps env w) as Hsl.
  destruct (get_toptex_headers_log w) as [sent [Hlog Hsent]].
  destruct (get_toptex_headers env w) as [[hs | x] w1]; cbn [snd] in *.
  - split.
    + rewrite requests_send_world. exact Hsl.
    + exists sent, [data_request env e hs], hs. split; [|split].
      * rewrite requests_send_world. simpl. rewrite Hlog, <- app_assoc. reflexivity.
      * exact Hsent.
      * right. reflexivity.
  - split; [exact Hsl|].
    exists sent, [], []. split; [|split].
    + rewrite app_nil_r. exact Hlog.
    + exact Hsent.
    + left. reflexivity.
Qed.

(** X10: no RequestException ever leaves a decorated handler: whatever
    it raises is of another class, so the [except] clause of the retry
    wrapper has nothing to catch. *)
Theorem invoke_raises_no_RequestException (e : endpoint) (w w' : World) (x : exn) :
  invoke env e w = (Raise x, w') -> is_RequestException x = false.
Proof.
  rewrite invoke_handler. unfold handler_shape.
  apply (try_converts _ 503 (fun y => "TopTex API error: " ++ exn_str y)).
Qed.

(** X11: a handler that is not a DELETE, answered with a status outside
    400..599, returns the decoded JSON body; when decoding raises a
    RequestException it raises HTTPException 503, and any other decoding
    error is raised as it is. *)
Theorem handler_returns_body
    (e : endpoint) (w w1 : World) (hs : list (string * string)) (resp : response) :
  get_toptex_headers env w = (Ret hs, w1) ->
  rq_method (data_request env e hs) <> "DELETE" ->
  result (upstream env (net_log w1) (data_request env e hs)) = inr resp ->
  ~ (400 <= status_code resp < 600) ->
  invoke env e w =
  (match json_result resp with
   | inr v => Ret v
   | inl x =>
       if is_RequestException x
       then Raise (HTTPException 503 ("TopTex API error: " ++ exn_str x))
       else Raise x
   end,
   snd (requests_send env (data_request env e hs) w1)).
Proof.
  intros Hhs Hmethod Hres Hst. rewrite invoke_handler, requests_send_world.
  unfold handler_shape, try_except. rewrite (bind_ret_run _ Hhs).
  unfold bind, requests_send. rewrite Hres.
  rewrite (raise_for_status_ok resp _ Hst).
  destruct e; try (exfalso; apply Hmethod; reflexivity);
    unfold on_success, response_json;
    (destruct (json_result resp) as [x | v]; simpl;
     [destruct (is_RequestException x); reflexivity | reflexivity]).
Qed.


(** X13: [get_orders] sends the [status] filter only when it is a
    non-empty string: with no status or an empty one the query holds
    just [skip] and [limit]. *)
Theorem get_orders_status_filter
    (status : option string) (skip limit : Z) (w w1 : World)
    (hs : list (string * string)) :
  get_toptex_headers env w = (Ret hs, w1) ->
  exists rq,
    net_log (snd (invoke env (GetOrders status skip limit) w))
      = (net_log w1 ++ [rq])%list /\
    rq_url rq = TOPTEX_BASE_URL env ++ "/orders" /\
    rq_params rq =
      match status with
      | Some (String c rest) =>
          [("skip", PyInt skip); ("limit", PyInt limit);
           ("status", PyStr (String c rest))]
      | _ => [("skip", PyInt skip); ("limit", PyInt limit)]
      end.
Proof.
  intros Hhs. rewrite invoke_handler, handler_shape_world, Hhs.
  rewrite requests_send_world.
  exists (data_request env (GetOrders status skip limit) hs).
  split; [reflexivity|]. split; [reflexivity|].
  destruct status as [[|c rest]|]; reflexivity.
Qed.

End Handlers.

Lemma invoke_raises_no_RequestException_witness :
  is_RequestException
    (HTTPException 503
       "TopTex API error: 503 Server Error: Service Unavailable for url: https://api.toptex.io/v3/products")
    = false.
Proof.
  apply (invoke_raises_no_RequestException env_503 list_products (initial 0)
           (snd (invoke env_503 list_products (initial 0)))).
  vm_compute. reflexivity.
Defined.

Lemma handler_returns_body_witness :
  invoke env_ok list_products (initial 0) =
  (Ret (PyDict [("sku", PyStr "X1"); ("name", PyStr "Widget")]),
   snd (requests_send env_ok (data_request env_ok list_products bearer_T0)
          (snd (get_toptex_headers env_ok (initial 0))))).
Proof.
  apply (handler_returns_body env_ok list_products (initial 0)
           (snd (get_toptex_headers env_ok (initial 0))) bearer_T0
           {| status_code := 200; reason := "OK"; url := base_url ++ "/products";
              json_result := inr (PyDict [("sku", PyStr "X1"); ("name", PyStr "Widget")]) |}).
  - vm_compute. reflexivity.
  - discriminate.
  - vm_compute. reflexivity.
  - simpl. lia.
Defined.


Lemma get_orders_status_filter_witness :
  exists rq,
    net_log (snd (invoke env_ok (GetOrders (Some "") 0 50) (initial 0)))
      = (net_log (snd (get_toptex_headers env_ok (initial 0))) ++ [rq])%list /\
    rq_url rq = TOPTEX_BASE_URL env_ok ++ "/orders" /\
    rq_params rq = [("skip", PyInt 0); ("limit", PyInt 50)].
Proof.
  apply (get_orders_status_filter env_ok (Some "") 0 50 (initial 0)
           (snd (get_toptex_headers env_ok (initial 0))) bearer_T0).
  vm_compute. reflexivity.
Defined.

(** ** The webhook *)

Section Webhook.

Variable env : Env.

(** [verify_webhook_secret] as a function of the configuration and of
    the signature header; it never changes the world. *)
Lemma verify_webhook_secret_run req w :
  verify_webhook_secret env req w =
  (if truthy (WEBHOOK_SECRET env)
      && differs (headers_get "x-odoo-signature" (headers req)) (WEBHOOK_SECRET env)
   then Raise (HTTPException 401 "Unauthorized") else Ret tt, w).
Proof.
  unfold verify_webhook_secret.
  destruct (truthy (WEBHOOK_SECRET env)); [|reflexivity].
  destruct (differs _ _); reflexivity.
Qed.

(** What the [except Exception] of the webhook lets out. *)
Lemma try_except_Exception_400 {A} (m : M A) (detail : exn -> string) w x w' :
  try_except m is_Exception (fun e => raise (HTTPException 400 (detail e))) w
    = (Raise x, w') ->
  (exists d, x = HTTPException 400 d) \/ (exists cls, x = BaseOnly cls).
Proof.
  unfold try_except, raise. destruct (m w) as [[a | e] w1]; [discriminate|].
  destruct e; simpl; intros H; injection H as <- _;
    first [left; eexists; reflexivity | right; eexists; reflexivity].
Qed.

(** Awaiting a decorated handler inside a body. *)
Lemma call_await_run {B} e (k : pyval -> M B) w :
  bind (call env e) (fun c => bind (await c) k) w = bind (invoke env e) k w.
Proof. destruct e; reflexivity. Qed.

(** X14: the webhook raises only three kinds of exception: the 401 of a
    bad signature, raised in an unchanged world; HTTPException 400, into
    which every Exception of the processing is turned, the 503 of a
    failed upstream call included; or an exception outside the Exception
    class, which it lets through. It never raises 503. *)
Theorem from_odoo_error_classes (req : Request) (w w' : World) (x : exn) :
  from_odoo env req w = (Raise x, w') ->
  (x = HTTPException 401 "Unauthorized" /\ w' = w) \/
  (exists d, x = HTTPException 400 d) \/
  (exists cls, x = BaseOnly cls).
Proof.
  unfold from_odoo, bind at 1. rewrite verify_webhook_secret_run.
  destruct (truthy (WEBHOOK_SECRET env) && differs _ _).
  - intros H. injection H as <- <-. left. split; reflexivity.
  - intros H. right. exact (try_except_Exception_400 _ _ _ _ _ H).
Qed.

(** X15: the webhook answers 401 exactly when a non-empty secret is
    configured and the [x-odoo-signature] header is missing or different;
    with no secret, or an empty one, no request is refused for its
    signature. *)
Theorem from_odoo_unauthorized_iff (req : Request) (w : World) :
  fst (from_odoo env req w) = Raise (HTTPException 401 "Unauthorized") <->
  exists secret,
    WEBHOOK_SECRET env = Some secret /\ secret <> "" /\
    headers_get "x-odoo-signature" (headers req) <> Some secret.
Proof.
  unfold from_odoo, bind at 1. rewrite verify_webhook_secret_run. split.
  - destruct (WEBHOOK_SECRET env) as [[|c rest]|] eqn:Hsecret; simpl.
    + intros H.
      destruct (try_except _ _ _ w) as [[r | x] w1] eqn:Hrun; [discriminate|].
      simpl in H. injection H as ->.
      destruct (try_except_Exception_400 _ _ _ _ _ Hrun) as [[d Hd] | [cls Hd]];
        discriminate.
    + destruct (headers_get "x-odoo-signature" (headers req)) as [given|]; simpl.
      * destruct (String.eqb_spec given (String c rest)) as [Heq | Hneq]; simpl.
        -- intros H.
           destruct (try_except _ _ _ w) as [[r | x] w1] eqn:Hrun; [discriminate|].
           simpl in H. injection H as ->.
           destruct (try_except_Exception_400 _ _ _ _ _ Hrun) as [[d Hd] | [cls Hd]];
             discriminate.
        -- intros _. exists (String c rest). repeat split; try discriminate.
           intros H. injection H as H. exact (Hneq H).
      * intros _. exists (String c rest). repeat split; discriminate.
    + intros H.
      destruct (try_except _ _ _ w) as [[r | x] w1] eqn:Hrun; [discriminate|].
      simpl in H. injection H as ->.
      destruct (try_except_Exception_400 _ _ _ _ _ Hrun) as [[d Hd] | [cls Hd]];
        discriminate.
  - intros [secret [Hsecret [Hne Hsig]]]. rewrite Hsecret.
    destruct secret as [|c rest]; [exfalso; apply Hne; reflexivity|]. simpl.
    destruct (headers_get "x-odoo-signature" (headers req)) as [given|]; simpl.
    + destruct (String.eqb_spec given (String c rest)) as [Heq | Hneq]; simpl.
      * exfalso. apply Hsig. rewrite Heq. reflexivity.
      * reflexivity.
    + reflexivity.
Qed.

Lemma eq_str_false v s : v <> PyStr s -> eq_str v s = false.
Proof.
  intros Hne. destruct v; try reflexivity. simpl.
  destruct (String.eqb_spec s0 s) as [-> | _]; [|reflexivity].
  exfalso. apply Hne. reflexivity.
Qed.

(** The body of the webhook once the payload is known to be a dict. *)
Lemma from_odoo_dict req w fields :
  verify_webhook_secret env req w = (Ret tt, w) ->
  rq_body req = inr (PyDict fields) ->
  from_odoo env req w =
  try_except
    (let payload := PyDict fields in
     let webhook_type := field_or fields "type" PyNone in
     if eq_str webhook_type "order_created" then
       order <- lift (Order_new env (field_or fields "order_number" PyNone)
                        (field_or fields "customer_id" PyNone)
                        (field_or fields "items" (PyList []))
                        (field_or fields "total_price" (PyInt 0))
                        (field_or fields "shipping_address" PyNone)) ;;
       result <- invoke env (CreateOrder order) ;;
       ret (PyDict [("status", PyStr "processed"); ("result", result)])
     else if eq_str webhook_type "order_updated" then
       update <- lift (UpdateOrder_new env (field_or fields "status" PyNone)
                         (field_or fields "tracking_number" PyNone)) ;;
       result <- invoke env (UpdateOrder_ (field_or fields "order_number" PyNone)
                               update) ;;
       ret (PyDict [("status", PyStr "processed"); ("result", result)])
     else
       ret (PyDict [("status", PyStr "unknown_type");
                    ("webhook_type", webhook_type)]))
    is_Exception
    (fun e => raise (HTTPException 400 ("Error processing webhook: " ++ exn_str e)))
    w.
Proof.
  intros Hverify Hbody. unfold from_odoo. rewrite (bind_ret_run _ Hverify).
  unfold try_except. rewrite Hbody. cbv zeta.
  change (lift (inr (PyDict fields))) with (ret (PyDict fields)).
  unfold bind at 1, ret at 1. unfold dict_get. fold (field_or fields "type" (PyStr "unknown")).
  fold (field_or fields "type" PyNone).
  fold (field_or fields "order_number" PyNone).
  fold (field_or fields "customer_id" PyNone).
  fold (field_or fields "items" (PyList [])).
  fold (field_or fields "total_price" (PyInt 0)).
  fold (field_or fields "shipping_address" PyNone).
  fold (field_or fields "status" PyNone).
  fold (field_or fields "tracking_number" PyNone).
  cbn [lift]. unfold bind at 1, ret at 1. unfold bind at 1, ret at 1.
  destruct (eq_str (field_or fields "type" PyNone) "order_created").
  - unfold bind at 1, ret at 1. unfold bind at 1, ret at 1. unfold bind at 1, ret at 1.
    unfold bind at 1, ret at 1. unfold bind at 1, ret at 1.
    unfold bind at 1. unfold bind at 3.
    destruct (lift (Order_new env _ _ _ _ _) w) as [[order | x] w1] eqn:Hnew;
      [|reflexivity].
    change (create_order env order) with (call env (CreateOrder order)).
    rewrite call_await_run. reflexivity.
  - destruct (eq_str (field_or fields "type" PyNone) "order_updated"); [|reflexivity].
    unfold bind at 1, ret at 1. unfold bind at 1, ret at 1.
    unfold bind at 1. unfold bind at 4.
    destruct (lift (UpdateOrder_new env _ _) w) as [[update | x] w1] eqn:Hnew;
      [|reflexivity].
    unfold bind at 1, ret at 1.
    change (update_order env (field_or fields "order_number" PyNone) update)
      with (call env (UpdateOrder_ (field_or fields "order_number" PyNone) update)).
    rewrite call_await_run. reflexivity.
Qed.

(** X16: a payload whose [type] is neither ["order_created"] nor
    ["order_updated"] (or is missing) is answered with the
    [unknown_type] object naming that type, in an unchanged world:
    nothing is sent upstream and no token is fetched. *)
Theorem from_odoo_unknown_type
    (req : Request) (w : World) (fields : list (string * pyval)) :
  verify_webhook_secret env req w = (Ret tt, w) ->
  rq_body req = inr (PyDict fields) ->
  field_or fields "type" PyNone <> PyStr "order_created" ->
  field_or fields "type" PyNone <> PyStr "order_updated" ->
  from_odoo env req w =
  (Ret (PyDict [("status", PyStr "unknown_type");
                ("webhook_type", field_or fields "type" PyNone)]), w).
Proof.
  intros Hverify Hbody Hc Hu. rewrite (from_odoo_dict req w fields Hverify Hbody).
  cbv zeta. rewrite (eq_str_false _ _ Hc), (eq_str_false _ _ Hu). reflexivity.
Qed.

(** X17: a body that is not JSON, or whose JSON is not an object, is
    answered with HTTPException 400 in an unchanged world. *)
Theorem from_odoo_malformed_payload (req : Request) (w : World) :
  verify_webhook_secret env req w = (Ret tt, w) ->
  (forall fields, rq_body req <> inr (PyDict fields)) ->
  (forall cls, rq_body req <> inl (BaseOnly cls)) ->
  exists d, from_odoo env req w = (Raise (HTTPException 400 d), w).
Proof.
  intros Hverify Hdict Hbase. unfold from_odoo. rewrite (bind_ret_run _ Hverify).
  unfold try_except, bind.
  destruct (rq_body req) as [x | v] eqn:Hbody.
  - destruct x; try (eexists; reflexivity).
    exfalso. apply (Hbase cls). reflexivity.
  - destruct v; try (eexists; reflexivity).
    exfalso. apply (Hdict fields). reflexivity.
Qed.

(** X18: an [order_created] payload that passes validation is handled
    by one call of [create_order] on the validated order: its result is
    wrapped as [processed], and any Exception it raises, the 503 of a
    failed upstream call included, comes out as HTTPException 400. *)
Theorem from_odoo_order_created
    (req : Request) (w : World) (fields : list (string * pyval)) (order : Order.t) :
  verify_webhook_secret env req w = (Ret tt, w) ->
  rq_body req = inr (PyDict fields) ->
  field_or fields "type" PyNone = PyStr "order_created" ->
  Order_new env (field_or fields "order_number" PyNone)
    (field_or fields "customer_id" PyNone)
    (field_or fields "items" (PyList []))
    (field_or fields "total_price" (PyInt 0))
    (field_or fields "shipping_address" PyNone) = inr order ->
  from_odoo env req w =
  match invoke env (CreateOrder order) w with
  | (Ret r, w') =>
      (Ret (PyDict [("status", PyStr "processed"); ("result", r)]), w')
  | (Raise x, w') =>
      if is_Exception x
      then (Raise (HTTPException 400 ("Error processing webhook: " ++ exn_str x)), w')
      else (Raise x, w')
  end.
Proof.
  intros Hverify Hbody Htype Hnew.
  rewrite (from_odoo_dict req w fields Hverify Hbody).
  cbv zeta. rewrite Htype, Hnew. cbn [eq_str String.eqb Ascii.eqb Bool.eqb lift].
  unfold try_except, bind at 1, ret at 1. unfold bind.
  destruct (invoke env (CreateOrder order) w) as [[r | x] w']; reflexivity.
Qed.

(** X19: an [order_updated] payload that passes validation is handled
    by one call of [update_order] with whatever [order_number] the
    payload holds, [None] when it holds none. *)
Theorem from_odoo_order_updated
    (req : Request) (w : World) (fields : list (string * pyval))
    (update : UpdateOrder.t) :
  verify_webhook_secret env req w = (Ret tt, w) ->
  rq_body req = inr (PyDict fields) ->
  field_or fields "type" PyNone = PyStr "order_updated" ->
  UpdateOrder_new env (field_or fields "status" PyNone)
    (field_or fields "tracking_number" PyNone) = inr update ->
  from_odoo env req w =
  match invoke env (UpdateOrder_ (field_or fields "order_number" PyNone) update) w with
  | (Ret r, w') =>
      (Ret (PyDict [("status", PyStr "processed"); ("result", r)]), w')
  | (Raise x, w') =>
      if is_Exception x
      then (Raise (HTTPException 400 ("Error processing webhook: " ++ exn_str x)), w')
      else (Raise x, w')
  end.
Proof.
  intros Hverify Hbody Htype Hnew.
  rewrite (from_odoo_dict req w fields Hverify Hbody).
  cbv zeta. rewrite Htype, Hnew. cbn [eq_str String.eqb Ascii.eqb Bool.eqb lift].
  unfold try_except, bind at 1, ret at 1. unfold bind.
  destruct (invoke env (UpdateOrder_ _ update) w) as [[r | x] w']; reflexivity.
Qed.

(** X20: an [order_updated] payload without [order_number] still goes
    upstream: once the headers are there, the request sent is a PUT to
    [{base}/orders/None]. *)
Theorem from_odoo_update_without_number
    (req : Request) (w w1 : World) (fields : list (string * pyval))
    (update : UpdateOrder.t) (hs : list (string * string)) :
  verify_webhook_secret env req w = (Ret tt, w) ->
  rq_body req = inr (PyDict fields) ->
  field_or fields "type" PyNone = PyStr "order_updated" ->
  assoc "order_number" fields = None ->
  UpdateOrder_new env (field_or fields "status" PyNone)
    (field_or fields "tracking_number" PyNone) = inr update ->
  get_toptex_headers env w = (Ret hs, w1) ->
  exists rq,
    net_log (snd (from_odoo env req w)) = (net_log w1 ++ [rq])%list /\
    rq_method rq = "PUT" /\
    rq_url rq = TOPTEX_BASE_URL env ++ "/orders/None" /\
    rq_json rq = Some (UpdateOrder.dict_exclude_unset update).
Proof.
  intros Hverify Hbody Htype Hnum Hnew Hhs.
  rewrite (from_odoo_dict req w fields Hverify Hbody).
  cbv zeta. rewrite Htype, Hnew. cbn [eq_str String.eqb Ascii.eqb Bool.eqb lift].
  unfold field_or at 1. rewrite Hnum.
  exists (data_request env (UpdateOrder_ PyNone update) hs).
  split; [|repeat split].
  assert (Hworld : snd (invoke env (UpdateOrder_ PyNone update) w)
                   = snd (requests_send env
                            (data_request env (UpdateOrder_ PyNone update) hs) w1))
    by (rewrite invoke_handler, (handler_shape_world env), Hhs; reflexivity).
  rewrite requests_send_world in Hworld.
  unfold try_except, bind at 1, ret at 1. unfold bind.
  destruct (invoke env (UpdateOrder_ PyNone update) w) as [[r | x] w'];
    cbn [snd] in *; [|destruct (is_Exception x)]; cbn [snd raise];
    rewrite Hworld; reflexivity.
Qed.

End Webhook.

Lemma from_odoo_error_classes_witness :
  (HTTPException 401 "Unauthorized" = HTTPException 401 "Unauthorized" /\
   initial 0 = initial 0) \/
  (exists d, HTTPException 401 "Unauthorized" = HTTPException 400 d) \/
  (exists cls, HTTPException 401 "Unauthorized" = BaseOnly cls).
Proof.
  apply (from_odoo_error_classes env_ok forged_webhook (initial 0) (initial 0)).
  vm_compute. reflexivity.
Defined.

Lemma from_odoo_unknown_type_witness :
  from_odoo env_ok
    (signed_webhook (inr (PyDict [("type", PyStr "invoice_paid")]))) (initial 0) =
  (Ret (PyDict [("status", PyStr "unknown_type");
                ("webhook_type",
                 field_or [("type", PyStr "invoice_paid")] "type" PyNone)]),
   initial 0).
Proof.
  apply (from_odoo_unknown_type env_ok
           (signed_webhook (inr (PyDict [("type", PyStr "invoice_paid")])))
           (initial 0) [("type", PyStr "invoice_paid")]).
  - reflexivity.
  - reflexivity.
  - vm_compute. discriminate.
  - vm_compute. discriminate.
Defined.

Lemma from_odoo_malformed_payload_witness :
  exists d,
    from_odoo env_ok (signed_webhook (inr (PyList []))) (initial 0)
      = (Raise (HTTPException 400 d), initial 0).
Proof.
  apply (from_odoo_malformed_payload env_ok (signed_webhook (inr (PyList [])))
           (initial 0)).
  - reflexivity.
  - simpl. discriminate.
  - simpl. discriminate.
Defined.

Lemma from_odoo_order_created_witness :
  from_odoo env_503 (signed_webhook (inr (PyDict order_created_fields))) (initial 0) =
  match invoke env_503 (CreateOrder order_SO001) (initial 0) with
  | (Ret r, w') =>
      (Ret (PyDict [("status", PyStr "processed"); ("result", r)]), w')
  | (Raise x, w') =>
      if is_Exception x
      then (Raise (HTTPException 400 ("Error processing webhook: " ++ exn_str x)), w')
      else (Raise x, w')
  end.
Proof.
  apply (from_odoo_order_created env_503
           (signed_webhook (inr (PyDict order_created_fields))) (initial 0)
           order_created_fields order_SO001).
  - reflexivity.
  - reflexivity.
  - reflexivity.
  - reflexivity.
Defined.

Lemma from_odoo_order_updated_witness :
  from_odoo env_ok (signed_webhook (inr (PyDict order_updated_fields))) (initial 0) =
  match invoke env_ok
          (UpdateOrder_ (field_or order_updated_fields "order_number" PyNone)
             update_shipped) (initial 0) with
  | (Ret r, w') =>
      (Ret (PyDict [("status", PyStr "processed"); ("result", r)]), w')
  | (Raise x, w') =>
      if is_Exception x
      then (Raise (HTTPException 400 ("Error processing webhook: " ++ exn_str x)), w')
      else (Raise x, w')
  end.
Proof.
  apply (from_odoo_order_updated env_ok
           (signed_webhook (inr (PyDict order_updated_fields))) (initial 0)
           order_updated_fields update_shipped).
  - reflexivity.
  - reflexivity.
  - reflexivity.
  - reflexivity.
Defined.

Lemma from_odoo_update_without_number_witness :
  exists rq,
    net_log (snd (from_odoo env_ok
                    (signed_webhook (inr (PyDict order_updated_fields))) (initial 0)))
      = (net_log (snd (get_toptex_headers env_ok (initial 0))) ++ [rq])%list /\
    rq_method rq = "PUT" /\
    rq_url rq = TOPTEX_BASE_URL env_ok ++ "/orders/None" /\
    rq_json rq = Some (UpdateOrder.dict_exclude_unset update_shipped).
Proof.
  apply (from_odoo_update_without_number env_ok
           (signed_webhook (inr (PyDict order_updated_fields))) (initial 0)
           (snd (get_toptex_headers env_ok (initial 0)))
           order_updated_fields update_shipped bearer_T0).
  - reflexivity.
  - reflexivity.
  - reflexivity.
  - reflexivity.
  - reflexivity.
  - vm_compute. reflexivity.
Defined.

(** ** Status endpoints and startup *)

Section Status.

Variable env : Env.

(** A token that [get_token] returns is held with an expiry that the
    clock has not reached. *)
Lemma get_token_fresh w tok w1 :
  get_token env w = (Ret tok, w1) ->
  token (auth_manager w1) = tok /\
  exists t, token_expiry (auth_manager w1) = Some t /\ clock w1 < t.
Proof.
  unfold get_token. rewrite (bind_ret_run _ (is_token_valid_run w)).
  match goal with |- context [negb ?b] => destruct b eqn:Hvalid end; cbn [negb].
  - unfold self_token. intros H. injection H as <- <-. split; [reflexivity|].
    destruct (token_expiry (auth_manager w)) as [t|].
    + exists t. split; [reflexivity|]. apply Z.ltb_lt.
      destruct (token (auth_manager w)); try exact Hvalid; discriminate.
    + destruct (token (auth_manager w)); discriminate.
  - intros Hauth.
    destruct (authenticate_outcome env w) as [[e He] | [resp [data [tok' H]]]].
    + rewrite He in Hauth. discriminate.
    + destruct H as [_ [_ [_ [_ Heq]]]]. rewrite Heq in Hauth.
      injection Hauth as <- <-. split; [reflexivity|].
      eexists. split; [reflexivity|]. simpl. unfold timedelta_hours. lia.
Qed.

(** X21: [auth_status] either returns the object
    [{status: authenticated, token_valid, token_expiry}], in which the
    expiry is always a string, never null, and (the clock not moving
    between [get_token] and the validity test) [token_valid] is false
    exactly when the token held is [None]; or it raises HTTPException 503
    (or lets through an exception outside the Exception class). *)
Theorem auth_status_outcome (w : World) :
  (exists valid t w',
      auth_status env w =
      (Ret (PyDict [("status", PyStr "authenticated");
                    ("token_valid", PyBool valid);
                    ("token_expiry", PyStr (isoformat env t))]), w') /\
      token_expiry (auth_manager w') = Some t /\
      (valid = true <-> token (auth_manager w') <> PyNone)) \/
  (exists x w',
      auth_status env w = (Raise x, w') /\
      ((exists d, x = HTTPException 503 d) \/ (exists cls, x = BaseOnly cls))).
Proof.
  unfold auth_status, try_except, bind.
  destruct (get_token env w) as [[tok | x] w1] eqn:Hget.
  - left. destruct (get_token_fresh w tok w1 Hget) as [Htok [t [Hexp Hlt]]].
    rewrite is_token_valid_run. unfold self_token_expiry, ret. rewrite Hexp.
    do 3 eexists. split; [reflexivity|]. split; [exact Hexp|].
    replace (clock w1 <? t) with true by (symmetry; apply Z.ltb_lt; exact Hlt).
    rewrite Htok. destruct tok; split; try discriminate; try reflexivity.
    intros H. exfalso. apply H. reflexivity.
  - right. destruct x; simpl; do 2 eexists;
      (split; [reflexivity|]);
      first [left; eexists; reflexivity | right; eexists; reflexivity].
Qed.

(** X22: a failed authentication does not stop the startup: the event
    returns normally after its one request, and the credential is left
    as it was. *)
Theorem startup_survives_auth_failure (w : World) :
  is_token_valid w = (Ret false, w) ->
  request_failed (upstream env (net_log w) (auth_request env)) ->
  exists w',
    startup_event env w = (Ret tt, w') /\
    auth_manager w' = auth_manager w /\
    net_log w' = (net_log w ++ [auth_request env])%list.
Proof.
  intros Hinvalid Hfail.
  destruct (authenticate_failure env w Hfail) as [detail Hauth].
  rewrite <- (get_token_invalid env w Hinvalid) in Hauth.
  exists (snd (requests_send env (auth_request env) w)).
  split; [|split].
  - unfold startup_event.
    rewrite (try_caught_run _ _ (bind_raise_run _ Hauth) eq_refl). reflexivity.
  - rewrite requests_send_world. reflexivity.
  - rewrite requests_send_world. reflexivity.
Qed.

(** X23: [health_check] reports ["connected"] exactly when the headers
    were obtained and the probe was answered with status 200; every
    other answered probe is still ["healthy"], but ["disconnected"]. *)
Theorem health_check_connected_iff (w : World) :
  (exists w',
      health_check env w =
      (Ret (PyDict [("status", PyStr "healthy"); ("toptex_api", PyStr "connected")]),
       w')) <->
  (exists hs w1 resp,
      get_toptex_headers env w = (Ret hs, w1) /\
      result (upstream env (net_log w1) (health_request env hs)) = inr resp /\
      status_code resp = 200).
Proof.
  unfold health_check, try_except, bind, requests_get.
  fold (health_request env).
  destruct (get_toptex_headers env w) as [[hs | x] w1].
  - change {| rq_method := "GET"; rq_url := TOPTEX_BASE_URL env ++ "/health";
              rq_headers := hs; rq_params := []; rq_json := None;
              rq_timeout := 10 |} with (health_request env hs).
    unfold requests_send.
    destruct (result (upstream env (net_log w1) (health_request env hs)))
      as [x | resp] eqn:Hres; simpl.
    + split.
      * intros [w' H]. discriminate.
      * intros [hs' [w1' [resp [H [Hres' _]]]]]. injection H as <- <-.
        rewrite Hres in Hres'. discriminate.
    + destruct (Z.eqb_spec (status_code resp) 200) as [H200 | H200]; split.
      * intros _. exists hs, w1, resp. repeat split; assumption.
      * intros _. eexists. reflexivity.
      * intros [w' H]. discriminate.
      * intros [hs' [w1' [resp' [H [Hres' Hst]]]]]. injection H as <- <-.
        rewrite Hres in Hres'. injection Hres' as <-. contradiction.
  - simpl. split.
    + intros [w' H]. discriminate.
    + intros [hs [w1' [resp [H _]]]]. discriminate.
Qed.

(** *** The process never sleeps *)

Lemma quiet_same {A} (m : M A) : (forall w, snd (m w) = w) -> quiet m.
Proof. intros H w. rewrite H. reflexivity. Qed.

Lemma quiet_ret {A} (a : A) : quiet (ret a).
Proof. intros w. reflexivity. Qed.

Lemma quiet_raise {A} (e : exn) : quiet (@raise A e).
Proof. intros w. reflexivity. Qed.

Lemma quiet_lift {A} (r : exn + A) : quiet (lift r).
Proof. destruct r; intros w; reflexivity. Qed.

Lemma quiet_bind {A B} (m : M A) (k : A -> M B) :
  quiet m -> (forall a, quiet (k a)) -> quiet (bind m k).
Proof.
  intros Hm Hk w. unfold bind. specialize (Hm w).
  destruct (m w) as [[a | e] w1]; simpl in *.
  - rewrite Hk. exact Hm.
  - exact Hm.
Qed.

Lemma quiet_try {A} (m : M A) c (h : exn -> M A) :
  quiet m -> (forall e, quiet (h e)) -> quiet (try_except m c h).
Proof.
  intros Hm Hh w. unfold try_except. specialize (Hm w).
  destruct (m w) as [[a | e] w1]; simpl in *.
  - exact Hm.
  - destruct (c e); [rewrite Hh|]; exact Hm.
Qed.

Lemma quiet_invoke e : quiet (invoke env e).
Proof.
  intros w. rewrite invoke_handler, (handler_shape_world env).
  pose proof (get_toptex_headers_sleeps env w) as Hsl.
  destruct (get_toptex_headers env w) as [[hs | x] w1]; cbn [snd] in *.
  - rewrite requests_send_world. exact Hsl.
  - exact Hsl.
Qed.

Lemma quiet_from_odoo req : quiet (from_odoo env req).
Proof.
  unfold from_odoo. apply quiet_bind.
  { apply quiet_same. intros w. rewrite verify_webhook_secret_run. reflexivity. }
  intros _. apply quiet_try; [|intros x; apply quiet_raise].
  apply quiet_bind; [apply quiet_lift|]. intros payload.
  apply quiet_bind; [apply quiet_lift|]. intros _.
  apply quiet_bind; [apply quiet_lift|]. intros webhook_type.
  destruct (eq_str webhook_type "order_created").
  - apply quiet_bind; [apply quiet_lift|]. intros order_number.
    apply quiet_bind; [apply quiet_lift|]. intros customer_id.
    apply quiet_bind; [apply quiet_lift|]. intros items.
    apply quiet_bind; [apply quiet_lift|]. intros total_price.
    apply quiet_bind; [apply quiet_lift|]. intros shipping_address.
    apply quiet_bind; [apply quiet_lift|]. intros order.
    change (create_order env order) with (call env (CreateOrder order)).
    intros w. rewrite call_await_run. revert w.
    apply quiet_bind; [apply quiet_invoke | intros r; apply quiet_ret].
  - destruct (eq_str webhook_type "order_updated").
    + apply quiet_bind; [apply quiet_lift|]. intros status.
      apply quiet_bind; [apply quiet_lift|]. intros tracking_number.
      apply quiet_bind; [apply quiet_lift|]. intros update.
      apply quiet_bind; [apply quiet_lift|]. intros order_number.
      change (update_order env order_number update)
        with (call env (UpdateOrder_ order_number update)).
      intros w. rewrite call_await_run. revert w.
      apply quiet_bind; [apply quiet_invoke | intros r; apply quiet_ret].
    + apply quiet_ret.
Qed.

Lemma quiet_get_token : quiet (get_token env).
Proof. intros w. apply get_token_sleeps. Qed.

Lemma quiet_run a w : sleeps (run env a w) = sleeps w.
Proof.
  destruct a; simpl.
  - reflexivity.
  - rewrite is_token_valid_run. reflexivity.
  - apply authenticate_sleeps.
  - apply get_token_sleeps.
  - apply get_toptex_headers_sleeps.
  - apply quiet_invoke.
  - apply quiet_from_odoo.
  - unfold auth_status. apply quiet_try; [|intros x; apply quiet_raise].
    apply quiet_bind; [apply quiet_get_token|]. intros _.
    apply quiet_bind.
    { apply quiet_same. intros w0. rewrite is_token_valid_run. reflexivity. }
    intros valid. apply quiet_bind; [apply quiet_same; reflexivity|].
    intros expiry. apply quiet_ret.
  - unfold health_check. apply quiet_try; [|intros x; apply quiet_ret].
    apply quiet_bind.
    { intros w0. apply get_toptex_headers_sleeps. }
    intros hs. apply quiet_bind; [|intros resp; apply quiet_ret].
    intros w0. unfold requests_get. rewrite requests_send_world. reflexivity.
  - unfold startup_event. apply quiet_try; [|intros x; apply quiet_ret].
    apply quiet_bind; [apply quiet_get_token | intros _; apply quiet_ret].
Qed.

(** X24: in no run of the process is [time.sleep] ever called: whatever
    the handlers, webhooks, status calls and upstream answers, the list
    of sleeps of a reachable world is empty. *)
Theorem process_never_sleeps (w : World) :
  reachable env w -> sleeps w = [].
Proof.
  intros [t0 [acts ->]].
  assert (H : forall w0, sleeps (run_all env acts w0) = sleeps w0).
  { induction acts as [|a acts IH]; intros w0; [reflexivity|].
    simpl. rewrite IH. apply quiet_run. }
  rewrite H. reflexivity.
Qed.

End Status.

Lemma startup_survives_auth_failure_witness :
  exists w',
    startup_event env_down_once (initial 0) = (Ret tt, w') /\
    auth_manager w' = auth_manager (initial 0) /\
    net_log w' = (net_log (initial 0) ++ [auth_request env_down_once])%list.
Proof.
  apply (startup_survives_auth_failure env_down_once (initial 0)).
  - reflexivity.
  - left. eexists. reflexivity.
Defined.

Lemma process_never_sleeps_witness :
  sleeps (run_all env_503 [ActStartup; ActInvoke list_products;
                           ActFromOdoo forged_webhook; ActHealthCheck]
            (initial 0)) = [].
Proof.
  apply (process_never_sleeps env_503).
  exists 0, [ActStartup; ActInvoke list_products; ActFromOdoo forged_webhook;
             ActHealthCheck].
  reflexivity.
Defined.

(** ** The credential over the life of the process *)

Section Credential.

Variable env : Env.

(** X25: the API key is not checked locally: with [TOPTEX_API_KEY]
    unset, [authenticate] still sends its request, with a null
    [api_key], and no [Authorization] header. *)
Theorem authenticate_without_api_key (w : World) :
  TOPTEX_API_KEY env = None ->
  exists rq,
    net_log (snd (authenticate env w)) = (net_log w ++ [rq])%list /\
    rq_url rq = TOPTEX_BASE_URL env ++ "/authenticate" /\
    rq_json rq = Some (PyDict [("api_key", PyNone)]) /\
    rq_headers rq = [].
Proof.
  intros Hkey. exists (auth_request env). split; [|split; [|split]].
  - destruct (authenticate_outcome env w) as [[e He] | [resp [data [tok H]]]].
    + rewrite He. simpl. rewrite requests_send_world. reflexivity.
    + destruct H as [_ [_ [_ [_ Heq]]]]. rewrite Heq. simpl.
      rewrite requests_send_world. reflexivity.
  - reflexivity.
  - unfold auth_request. simpl. rewrite Hkey. reflexivity.
  - reflexivity.
Qed.


End Credential.

Lemma authenticate_without_api_key_witness :
  exists rq,
    net_log (snd (authenticate
                    {| TOPTEX_API_KEY := None; TOPTEX_BASE_URL := base_url;
                       WEBHOOK_SECRET := None; upstream := upstream_ok;
                       py_repr := py_repr env_ok; isoformat := isoformat env_ok;
                       Order_new := demo_Order_new;
                       UpdateOrder_new := demo_UpdateOrder_new |} (initial 0)))
      = (net_log (initial 0) ++ [rq])%list /\
    rq_url rq = base_url ++ "/authenticate" /\
    rq_json rq = Some (PyDict [("api_key", PyNone)]) /\
    rq_headers rq = [].
Proof.
  apply (authenticate_without_api_key
           {| TOPTEX_API_KEY := None; TOPTEX_BASE_URL := base_url;
              WEBHOOK_SECRET := None; upstream := upstream_ok;
              py_repr := py_repr env_ok; isoformat := isoformat env_ok;
              Order_new := demo_Order_new;
              UpdateOrder_new := demo_UpdateOrder_new |} (initial 0)).
  reflexivity.
Defined.

